(** * The sign-in flow of [src/App.js]

    A shallow embedding of the React component [App]: its state cells, the
    event handlers that drive the multi-step sign-in, the polling loop of
    [handleSignInClick] and the view selected by the JSX of the component.

    Conventions.
    - Every [useState] cell is a field of the record [UI]; a setter call
      [setX(v)] is the record update [setX v].
    - A handler is a closure created by one render: it reads [email],
      [password], [duoCode] and [customInput] from the render that created
      it.  Handlers therefore take that snapshot as the argument [props].
    - [async] functions are run to completion in the monad [Async], which
      threads the [World] (state cells, the [userIdRef] ref, the log of the
      requests handed to [fetch], the timers awaited) and carries a raised
      fault as a value, the way a rejected promise does.
    - The server is a parameter: a [Network] answers a request from the
      history of the requests made before it. *)

From Stdlib Require Import String Ascii List Bool Arith Lia.
Import ListNotations.
Open Scope string_scope.

Set Implicit Arguments.

(** ** JavaScript values used by the component *)

Module Js.

(** [Boolean(s)] on a string: only the empty string is falsy. *)
Definition truthy (s : string) : bool := negb (s =? "").

(** [m || d] where [m] is a string property that may be [undefined]. *)
Definition or_else (m : option string) (d : string) : string :=
  match m with
  | Some s => if truthy s then s else d
  | None => d
  end.

(** [s.split(sep)] for a one-character separator: the pieces between the
    separators, of which there is always at least one. *)
Fixpoint split_from (sep : ascii) (acc : string) (s : string) : list string :=
  match s with
  | EmptyString => [acc]
  | String c rest =>
      if Ascii.eqb c sep
      then acc :: split_from sep "" rest
      else split_from sep (acc ++ String c "") rest
  end.

Definition split (sep : ascii) (s : string) : list string :=
  split_from sep "" s.

(** The character class [\d]: the ten ASCII digits. *)
Definition is_digit (c : ascii) : bool :=
  let n := nat_of_ascii c in ((48 <=? n) && (n <=? 57))%nat.

Fixpoint all_digits (s : string) : bool :=
  match s with
  | EmptyString => true
  | String c rest => is_digit c && all_digits rest
  end.

(** [/^\d+$/.test(s)] *)
Definition test_digits (s : string) : bool :=
  truthy s && all_digits s.

End Js.

(** ** Data exchanged with the server *)

(** The [data] payload of a [custom] status. *)
Record CustomStepData : Type := {
  title : string;
  subtitle : string;
  has_input : bool
}.

(** The object returned by [get_auth_status]: [status], and the optional
    [message] and [data] properties. *)
Record AuthStatus : Type := {
  status : string;
  message : option string;
  data : option CustomStepData
}.

(** A request handed to [fetch]: the path it is POSTed to and the JSON object
    of its body, as the ordered list of its properties.  Every property the
    component sends is a string; [JSON.stringify] keeps a property whose value
    is the empty string. *)
Record Request : Type := {
  url : string;
  body : list (string * string)
}.

Fixpoint property (key : string) (obj : list (string * string)) : option string :=
  match obj with
  | [] => None
  | (k, v) :: rest => if k =? key then Some v else property key rest
  end.

(** ** The state cells of the component *)

Record UI : Type := {
  email : string;
  password : string;
  keepSignedIn : bool;
  isPasswordStep : bool;
  isDuoMobileStep : bool;
  isSuccessStep : bool;
  isSubmitting : bool;
  authMessage : string;
  duoCode : string;
  showDuoCodeInput : bool;
  isError : bool;
  dontAskAgain : bool;
  alert_email_typing : bool;
  isCustomStep : bool;
  customStepData : CustomStepData;
  customInput : string
}.

(** The initial values passed to [useState]. *)
Definition initialUI : UI := {|
  email := "";
  password := "";
  keepSignedIn := false;
  isPasswordStep := false;
  isDuoMobileStep := false;
  isSuccessStep := false;
  isSubmitting := false;
  authMessage := "";
  duoCode := "";
  showDuoCodeInput := false;
  isError := false;
  dontAskAgain := false;
  alert_email_typing := false;
  isCustomStep := false;
  customStepData := {| title := ""; subtitle := ""; has_input := false |};
  customInput := ""
|}.

Module Setters.

Definition setEmail (v : string) (s : UI) : UI :=
  {| email := v; password := password s; keepSignedIn := keepSignedIn s;
     isPasswordStep := isPasswordStep s; isDuoMobileStep := isDuoMobileStep s;
     isSuccessStep := isSuccessStep s; isSubmitting := isSubmitting s;
     authMessage := authMessage s; duoCode := duoCode s;
     showDuoCodeInput := showDuoCodeInput s; isError := isError s;
     dontAskAgain := dontAskAgain s; alert_email_typing := alert_email_typing s;
     isCustomStep := isCustomStep s; customStepData := customStepData s;
     customInput := customInput s |}.

Definition setPassword (v : string) (s : UI) : UI :=
  {| email := email s; password := v; keepSignedIn := keepSignedIn s;
     isPasswordStep := isPasswordStep s; isDuoMobileStep := isDuoMobileStep s;
     isSuccessStep := isSuccessStep s; isSubmitting := isSubmitting s;
     authMessage := authMessage s; duoCode := duoCode s;
     showDuoCodeInput := showDuoCodeInput s; isError := isError s;
     dontAskAgain := dontAskAgain s; alert_email_typing := alert_email_typing s;
     isCustomStep := isCustomStep s; customStepData := customStepData s;
     customInput := customInput s |}.

Definition setKeepSignedIn (v : bool) (s : UI) : UI :=
  {| email := email s; password := password s; keepSignedIn := v;
     isPasswordStep := isPasswordStep s; isDuoMobileStep := isDuoMobileStep s;
     isSuccessStep := isSuccessStep s; isSubmitting := isSubmitting s;
     authMessage := authMessage s; duoCode := duoCode s;
     showDuoCodeInput := showDuoCodeInput s; isError := isError s;
     dontAskAgain := dontAskAgain s; alert_email_typing := alert_email_typing s;
     isCustomStep := isCustomStep s; customStepData := customStepData s;
     customInput := customInput s |}.

Definition setIsPasswordStep (v : bool) (s : UI) : UI :=
  {| email := email s; password := password s; keepSignedIn := keepSignedIn s;
     isPasswordStep := v; isDuoMobileStep := isDuoMobileStep s;
     isSuccessStep := isSuccessStep s; isSubmitting := isSubmitting s;
     authMessage := authMessage s; duoCode := duoCode s;
     showDuoCodeInput := showDuoCodeInput s; isError := isError s;
     dontAskAgain := dontAskAgain s; alert_email_typing := alert_email_typing s;
     isCustomStep := isCustomStep s; customStepData := customStepData s;
     customInput := customInput s |}.

Definition setIsDuoMobileStep (v : bool) (s : UI) : UI :=
  {| email := email s; password := password s; keepSignedIn := keepSignedIn s;
     isPasswordStep := isPasswordStep s; isDuoMobileStep := v;
     isSuccessStep := isSuccessStep s; isSubmitting := isSubmitting s;
     authMessage := authMessage s; duoCode := duoCode s;
     showDuoCodeInput := showDuoCodeInput s; isError := isError s;
     dontAskAgain := dontAskAgain s; alert_email_typing := alert_email_typing s;
     isCustomStep := isCustomStep s; customStepData := customStepData s;
     customInput := customInput s |}.

Definition setIsSuccessStep (v : bool) (s : UI) : UI :=
  {| email := email s; password := password s; keepSignedIn := keepSignedIn s;
     isPasswordStep := isPasswordStep s; isDuoMobileStep := isDuoMobileStep s;
     isSuccessStep := v; isSubmitting := isSubmitting s;
     authMessage := authMessage s; duoCode := duoCode s;
     showDuoCodeInput := showDuoCodeInput s; isError := isError s;
     dontAskAgain := dontAskAgain s; alert_email_typing := alert_email_typing s;
     isCustomStep := isCustomStep s; customStepData := customStepData s;
     customInput := customInput s |}.

Definition setIsSubmitting (v : bool) (s : UI) : UI :=
  {| email := email s; password := password s; keepSignedIn := keepSignedIn s;
     isPasswordStep := isPasswordStep s; isDuoMobileStep := isDuoMobileStep s;
     isSuccessStep := isSuccessStep s; isSubmitting := v;
     authMessage := authMessage s; duoCode := duoCode s;
     showDuoCodeInput := showDuoCodeInput s; isError := isError s;
     dontAskAgain := dontAskAgain s; alert_email_typing := alert_email_typing s;
     isCustomStep := isCustomStep s; customStepData := customStepData s;
     customInput := customInput s |}.

Definition setAuthMessage (v : string) (s : UI) : UI :=
  {| email := email s; password := password s; keepSignedIn := keepSignedIn s;
     isPasswordStep := isPasswordStep s; isDuoMobileStep := isDuoMobileStep s;
     isSuccessStep := isSuccessStep s; isSubmitting := isSubmitting s;
     authMessage := v; duoCode := duoCode s;
     showDuoCodeInput := showDuoCodeInput s; isError := isError s;
     dontAskAgain := dontAskAgain s; alert_email_typing := alert_email_typing s;
     isCustomStep := isCustomStep s; customStepData := customStepData s;
     customInput := customInput s |}.

Definition setDuoCode (v : string) (s : UI) : UI :=
  {| email := email s; password := password s; keepSignedIn := keepSignedIn s;
     isPasswordStep := isPasswordStep s; isDuoMobileStep := isDuoMobileStep s;
     isSuccessStep := isSuccessStep s; isSubmitting := isSubmitting s;
     authMessage := authMessage s; duoCode := v;
     showDuoCodeInput := showDuoCodeInput s; isError := isError s;
     dontAskAgain := dontAskAgain s; alert_email_typing := alert_email_typing s;
     isCustomStep := isCustomStep s; customStepData := customStepData s;
     customInput := customInput s |}.

Definition setShowDuoCodeInput (v : bool) (s : UI) : UI :=
  {| email := email s; password := password s; keepSignedIn := keepSignedIn s;
     isPasswordStep := isPasswordStep s; isDuoMobileStep := isDuoMobileStep s;
     isSuccessStep := isSuccessStep s; isSubmitting := isSubmitting s;
     authMessage := authMessage s; duoCode := duoCode s;
     showDuoCodeInput := v; isError := isError s;
     dontAskAgain := dontAskAgain s; alert_email_typing := alert_email_typing s;
     isCustomStep := isCustomStep s; customStepData := customStepData s;
     customInput := customInput s |}.

Definition setIsError (v : bool) (s : UI) : UI :=
  {| email := email s; password := password s; keepSignedIn := keepSignedIn s;
     isPasswordStep := isPasswordStep s; isDuoMobileStep := isDuoMobileStep s;
     isSuccessStep := isSuccessStep s; isSubmitting := isSubmitting s;
     authMessage := authMessage s; duoCode := duoCode s;
     showDuoCodeInput := showDuoCodeInput s; isError := v;
     dontAskAgain := dontAskAgain s; alert_email_typing := alert_email_typing s;
     isCustomStep := isCustomStep s; customStepData := customStepData s;
     customInput := customInput s |}.

Definition setDontAskAgain (v : bool) (s : UI) : UI :=
  {| email := email s; password := password s; keepSignedIn := keepSignedIn s;
     isPasswordStep := isPasswordStep s; isDuoMobileStep := isDuoMobileStep s;
     isSuccessStep := isSuccessStep s; isSubmitting := isSubmitting s;
     authMessage := authMessage s; duoCode := duoCode s;
     showDuoCodeInput := showDuoCodeInput s; isError := isError s;
     dontAskAgain := v; alert_email_typing := alert_email_typing s;
     isCustomStep := isCustomStep s; customStepData := customStepData s;
     customInput := customInput s |}.

Definition setAlert_email_typing (v : bool) (s : UI) : UI :=
  {| email := email s; password := password s; keepSignedIn := keepSignedIn s;
     isPasswordStep := isPasswordStep s; isDuoMobileStep := isDuoMobileStep s;
     isSuccessStep := isSuccessStep s; isSubmitting := isSubmitting s;
     authMessage := authMessage s; duoCode := duoCode s;
     showDuoCodeInput := showDuoCodeInput s; isError := isError s;
     dontAskAgain := dontAskAgain s; alert_email_typing := v;
     isCustomStep := isCustomStep s; customStepData := customStepData s;
     customInput := customInput s |}.

Definition setIsCustomStep (v : bool) (s : UI) : UI :=
  {| email := email s; password := password s; keepSignedIn := keepSignedIn s;
     isPasswordStep := isPasswordStep s; isDuoMobileStep := isDuoMobileStep s;
     isSuccessStep := isSuccessStep s; isSubmitting := isSubmitting s;
     authMessage := authMessage s; duoCode := duoCode s;
     showDuoCodeInput := showDuoCodeInput s; isError := isError s;
     dontAskAgain := dontAskAgain s; alert_email_typing := alert_email_typing s;
     isCustomStep := v; customStepData := customStepData s;
     customInput := customInput s |}.

Definition setCustomStepData (v : CustomStepData) (s : UI) : UI :=
  {| email := email s; password := password s; keepSignedIn := keepSignedIn s;
     isPasswordStep := isPasswordStep s; isDuoMobileStep := isDuoMobileStep s;
     isSuccessStep := isSuccessStep s; isSubmitting := isSubmitting s;
     authMessage := authMessage s; duoCode := duoCode s;
     showDuoCodeInput := showDuoCodeInput s; isError := isError s;
     dontAskAgain := dontAskAgain s; alert_email_typing := alert_email_typing s;
     isCustomStep := isCustomStep s; customStepData := v;
     customInput := customInput s |}.

Definition setCustomInput (v : string) (s : UI) : UI :=
  {| email := email s; password := password s; keepSignedIn := keepSignedIn s;
     isPasswordStep := isPasswordStep s; isDuoMobileStep := isDuoMobileStep s;
     isSuccessStep := isSuccessStep s; isSubmitting := isSubmitting s;
     authMessage := authMessage s; duoCode := duoCode s;
     showDuoCodeInput := showDuoCodeInput s; isError := isError s;
     dontAskAgain := dontAskAgain s; alert_email_typing := alert_email_typing s;
     isCustomStep := isCustomStep s; customStepData := customStepData s;
     customInput := v |}.

End Setters.
Import Setters.

(** ** The view selected by the JSX

    The chain of conditionals of the [return] of the component, outermost
    first.  Each view is named after the [key] of its markup; the markup has
    no view of its own for a custom step without input (it is shown by the
    prompt of the Duo step, with the message of the custom step) and none for
    a generic error (the message appears in the view that is current). *)

Inductive View : Type :=
| SuccessView      (* key="success-step" *)
| CustomView       (* key="custom-step" *)
| DuoCodeView      (* key="duo-mobile-step", the form of the security code *)
| DuoPromptView    (* key="duo-mobile-step", "Approve sign in request" *)
| PasswordView     (* key="password-step" *)
| EmailView.       (* key="email-step" *)

Definition render (s : UI) : View :=
  if isSuccessStep s then SuccessView
  else if isCustomStep s then CustomView
  else if isDuoMobileStep s then
         (if showDuoCodeInput s then DuoCodeView else DuoPromptView)
  else if isPasswordStep s then PasswordView
  else EmailView.

(** ** The world a handler runs in *)

(** What [fetch] resolves to: a response whose body is the JSON of a status
    object, or a response whose body [response.json()] cannot parse. *)
Inductive HttpResponse : Type :=
| JsonBody (r : AuthStatus)
| MalformedBody.

(** The promise returned by [fetch] resolves, or rejects when the transport
    fails. *)
Inductive FetchResult : Type :=
| Resolved (response : HttpResponse)
| Rejected.

(** The server and the transport: the outcome of a request, given the requests
    made before it. *)
Definition Network : Type := list Request -> Request -> FetchResult.

Record World : Type := {
  ui : UI;                 (* the state cells *)
  userIdRef : string;      (* userIdRef.current *)
  sent : list Request;     (* the requests handed to fetch, oldest first *)
  waited : list nat        (* the delays of the timers awaited, in ms *)
}.

(** The faults the component can meet. *)
Inductive Fault : Type :=
| FetchFailed      (* the promise of fetch rejected *)
| JsonSyntaxError. (* the promise of response.json() rejected *)

(** How a call ends: with a value, with a fault raised to the caller, or not
    within the iterations granted to a loop. *)
Inductive Result (A : Type) : Type :=
| Normal (a : A)
| Throw (f : Fault)
| Unfinished.

Arguments Throw {A} f.
Arguments Unfinished {A}.

Definition Async (A : Type) : Type := World -> Result A * World.

Definition ret {A} (a : A) : Async A := fun w => (Normal a, w).

Definition bind {A B} (m : Async A) (k : A -> Async B) : Async B :=
  fun w =>
    match m w with
    | (Normal a, w') => k a w'
    | (Throw f, w') => (Throw f, w')
    | (Unfinished, w') => (Unfinished, w')
    end.

Notation "x <- m ;; k" := (bind m (fun x => k))
  (at level 61, m at next level, right associativity).
Notation "m ;; k" := (bind m (fun _ => k))
  (at level 61, right associativity).

(** [try { body } catch (error) { handler }] *)
Definition try_catch {A} (body : Async A) (handler : Fault -> Async A) : Async A :=
  fun w =>
    match body w with
    | (Throw f, w') => handler f w'
    | other => other
    end.

(** A setter call. *)
Definition setState (f : UI -> UI) : Async unit :=
  fun w => (Normal tt, {| ui := f (ui w); userIdRef := userIdRef w;
                          sent := sent w; waited := waited w |}).

(** A read of [userIdRef.current]. *)
Definition readUserIdRef : Async string :=
  fun w => (Normal (userIdRef w), w).

(** [await new Promise(resolve => setTimeout(resolve, ms))] *)
Definition sleep (ms : nat) : Async unit :=
  fun w => (Normal tt, {| ui := ui w; userIdRef := userIdRef w;
                          sent := sent w; waited := (waited w ++ [ms])%list |}).

Section Component.

Variable net : Network.

(** [await fetch(path, { method: 'POST', ..., body: JSON.stringify(obj) })] *)
Definition fetch (path : string) (obj : list (string * string)) : Async HttpResponse :=
  fun w =>
    let request := {| url := path; body := obj |} in
    let w' := {| ui := ui w; userIdRef := userIdRef w;
                 sent := (sent w ++ [request])%list; waited := waited w |} in
    match net (sent w) request with
    | Resolved response => (Normal response, w')
    | Rejected => (Throw FetchFailed, w')
    end.

(** [await response.json()] *)
Definition json (response : HttpResponse) : Async AuthStatus :=
  match response with
  | JsonBody r => ret r
  | MalformedBody => fun w => (Throw JsonSyntaxError, w)
  end.

Definition api_url : string := "".

(** Lines 57-68. *)
Definition send_alert_notification (message : string) : Async unit :=
  try_catch
    (user_id <- readUserIdRef ;;
     fetch (api_url ++ "/alert") [("message", message); ("user_id", user_id)] ;;
     ret tt)
    (fun error => ret tt).

(** Lines 104-123.  The callers that pass three arguments get the default
    [customInput = '']. *)
Definition get_auth_status (email password duoCode customInput : string)
  : Async AuthStatus :=
  try_catch
    (user_id <- readUserIdRef ;;
     response <- fetch (api_url ++ "/auth")
                   [("email", email); ("password", password);
                    ("duoCode", duoCode); ("customInput", customInput);
                    ("user_id", user_id)] ;;
     json response)
    (fun error =>
       ret {| status := "error";
              message := Some "Network error or server is down.";
              data := None |}).

Definition maxAttempts : nat := 60.

(** Lines 172-240: the conditional on [status_data] in the body of the loop
    of [handleSignInClick].  It returns the loop variables [attempts] and
    [continuePolling] as the branch leaves them. *)
Definition classify (status_data : AuthStatus) (attempts : nat)
  : Async (nat * bool) :=
  let status := status status_data in
  if (status =? "pending") || (status =? "mobile notification")
     || (status =? "phone_call") then
    setState (setIsError false) ;;
    let message :=
      if status =? "mobile notification"
      then "We sent a notification to your mobile device. Please open it to continue."
      else if status =? "phone_call"
      then "We're calling your phone. Please answer it to continue."
      else "Authentication pending. Please wait..." in
    setState (setAuthMessage message) ;;
    setState (setIsPasswordStep false) ;;
    setState (setIsDuoMobileStep true) ;;
    setState (setIsCustomStep false) ;;
    setState (setShowDuoCodeInput false) ;;
    sleep 1000 ;;
    ret (S attempts, true)
  else if status =? "custom" then
    let customData := data status_data in
    (* the else block of lines 202-213, [message] being its constant *)
    let keepWaiting (message : string) : Async (nat * bool) :=
      setState (setIsError false) ;;
      setState (setAuthMessage message) ;;
      setState (setIsPasswordStep false) ;;
      setState (setIsCustomStep false) ;;
      setState (setIsDuoMobileStep true) ;;
      setState (setShowDuoCodeInput false) ;;
      sleep 1000 ;;
      ret (S attempts, true) in
    match customData with
    | Some d =>
        if has_input d then
          setState (setCustomStepData d) ;;
          setState (setIsPasswordStep false) ;;
          setState (setIsDuoMobileStep false) ;;
          setState (setIsCustomStep true) ;;
          setState (setAuthMessage "") ;;
          setState (setIsSubmitting false) ;;
          ret (attempts, false)
        else keepWaiting (title d ++ ": " ++ subtitle d)
    | None => keepWaiting "Processing your request..."
    end
  else if status =? "incorrect password" then
    setState (setIsError true) ;;
    setState (setAuthMessage "Incorrect password. Please try again.") ;;
    setState (setIsDuoMobileStep false) ;;
    setState (setIsPasswordStep true) ;;
    ret (attempts, false)
  else if (status =? "duo code") || (status =? "incorrect duo code") then
    let isIncorrect := status =? "incorrect duo code" in
    setState (setIsError isIncorrect) ;;
    setState (setAuthMessage
                (if isIncorrect then "Incorrect code. Please try again."
                 else "Open your Duo app and Duo will send you a one time code. enter code here")) ;;
    setState (setIsPasswordStep false) ;;
    setState (setIsDuoMobileStep true) ;;
    setState (setIsCustomStep false) ;;
    setState (setShowDuoCodeInput true) ;;
    ret (attempts, false)
  else if status =? "success" then
    setState (setIsSuccessStep true) ;;
    setState (setIsPasswordStep false) ;;
    setState (setIsDuoMobileStep false) ;;
    setState (setIsCustomStep false) ;;
    ret (attempts, false)
  else
    setState (setIsError true) ;;
    setState (setAuthMessage
                (Js.or_else (message status_data)
                   "An unexpected error occurred. Please try again.")) ;;
    ret (attempts, false).

(** One pass through the body of the [do ... while]: the query, with the
    three arguments the loop passes, then the conditional. *)
Definition pollOnce (props : UI) (attempts : nat) : Async (nat * bool) :=
  status_data <- get_auth_status (email props) (password props) (duoCode props) "" ;;
  classify status_data attempts.

(** Lines 169-241: [do { ... } while (continuePolling && attempts < maxAttempts)].
    [fuel] bounds the number of passes; [poll_finishes] below shows that
    [maxAttempts] passes are always enough. *)
Fixpoint doWhile (fuel : nat) (props : UI) (attempts : nat) : Async (nat * bool) :=
  match fuel with
  | O => fun w => (Unfinished, w)
  | S fuel' =>
      r <- pollOnce props attempts ;;
      let '(attempts', continuePolling) := r in
      if continuePolling && (attempts' <? maxAttempts)%nat
      then doWhile fuel' props attempts'
      else ret (attempts', continuePolling)
  end.

(** Lines 151-252. *)
Definition handleSignInClick (props : UI) (isContinuation : bool) : Async unit :=
  if negb (Js.truthy (password props)) then ret tt
  else
    (if negb isContinuation then
       setState (setIsSubmitting true) ;;
       setState (setAuthMessage "") ;;
       setState (setIsError false) ;;
       setState (setIsPasswordStep false) ;;
       setState (setIsDuoMobileStep true) ;;
       setState (setShowDuoCodeInput false)
     else ret tt) ;;
    r <- doWhile maxAttempts props 0 ;;
    let '(attempts, continuePolling) := r in
    (if continuePolling && (maxAttempts <=? attempts)%nat then
       setState (setIsError true) ;;
       setState (setAuthMessage "Authentication timed out. Please try again.")
     else ret tt) ;;
    (if negb continuePolling then setState (setIsSubmitting false) else ret tt).

(** Lines 128-141: [handleCustomSubmit] up to the call that restarts the
    polling. *)
Definition submitCustomInput (props : UI) : Async unit :=
  setState (setIsSubmitting true) ;;
  setState (setAuthMessage "Submitting...") ;;
  setState (setIsError false) ;;
  get_auth_status (email props) (password props) "" (customInput props) ;;
  setState (setCustomInput "") ;;
  setState (setIsCustomStep false) ;;
  setState (setIsDuoMobileStep true) ;;
  setState (setShowDuoCodeInput false) ;;
  setState (setAuthMessage "Authentication pending. Please wait...").

(** Lines 128-143.  The polling that line 142 starts is run to its end
    here; the source does not await it. *)
Definition handleCustomSubmit (props : UI) : Async unit :=
  submitCustomInput props ;;
  handleSignInClick props true.

(** Lines 74-81. *)
Definition handleNextClick (props : UI) : Async unit :=
  if Js.truthy (email props) then
    setState (setIsPasswordStep true) ;;
    setState (setAuthMessage "") ;;
    setState (setIsError false)
  else ret tt.

(** Lines 86-92. *)
Definition handleBackClick : Async unit :=
  setState (setIsPasswordStep true) ;;
  setState (setIsDuoMobileStep false) ;;
  setState (setIsCustomStep false) ;;
  setState (setAuthMessage "") ;;
  setState (setIsError false).

(** Line 348: the [onClick] of the back button of the password step. *)
Definition passwordBackClick : Async unit :=
  setState (setIsPasswordStep false) ;;
  setState (setAuthMessage "") ;;
  setState (setIsError false).

(** Line 367: the [onChange] of the email field. *)
Definition emailChange (props : UI) (value : string) : Async unit :=
  (if negb (alert_email_typing props) then
     setState (setAlert_email_typing true) ;;
     send_alert_notification "Someone is currently typing an email"
   else ret tt) ;;
  setState (setEmail value).

(** Line 369: the [onClick] of the Next button. *)
Definition nextButtonClick (props : UI) : Async unit :=
  send_alert_notification
    ("Someone is trying to sign in with email: " ++ email props).

End Component.

(** Lines 38-48: the effect run once when the component mounts.  It returns
    the value of [userIdRef.current] it leaves, the ref starting as ['']. *)
Definition captureUserId (pathname : string) : string :=
  let pathParts := Js.split "/"%char pathname in
  match nth_error pathParts 1 with
  | Some firstPart =>
      if Js.truthy firstPart && Js.test_digits firstPart then firstPart else ""
  | None => ""
  end.

(** The world once the component has mounted on a page at [pathname]. *)
Definition mount (pathname : string) : World :=
  {| ui := initialUI; userIdRef := captureUserId pathname;
     sent := []; waited := [] |}.

(** ** The events of the page

    What the user can do, and the handler the JSX binds to it in the view
    that is shown.  A control that is not rendered, or that is [disabled],
    has no handler.  Pressing Enter in a form clicks its submit button, so
    submitting the email form runs the [onClick] of the Next button and then
    the [onSubmit] of the form. *)

Inductive Event : Type :=
| ChangeEmail (value : string)
| SubmitEmail
| ChangePassword (value : string)
| ChangeKeepSignedIn (value : bool)
| SubmitPassword
| ClickBack
| ChangeDuoCode (value : string)
| SubmitDuoCode
| ChangeDontAskAgain (value : bool)
| ChangeCustomInput (value : string)
| SubmitCustomInput.

(** The [onClick] of the back button of a view, for the views that have one. *)
Definition backButton (v : View) : option (Async unit) :=
  match v with
  | CustomView | DuoCodeView | DuoPromptView => Some handleBackClick
  | PasswordView => Some passwordBackClick
  | SuccessView | EmailView => None
  end.

Definition handlerOf (net : Network) (props : UI) (e : Event) : option (Async unit) :=
  match e, render props with
  | ClickBack, v => backButton v
  | ChangeEmail value, EmailView => Some (emailChange net props value)
  | SubmitEmail, EmailView =>
      if negb (Js.truthy (email props)) then None
      else Some (nextButtonClick net props ;; handleNextClick props)
  | ChangePassword value, PasswordView => Some (setState (setPassword value))
  | ChangeKeepSignedIn value, PasswordView => Some (setState (setKeepSignedIn value))
  | SubmitPassword, PasswordView =>
      if isSubmitting props || negb (Js.truthy (password props)) then None
      else Some (handleSignInClick net props false)
  | ChangeDuoCode value, DuoCodeView => Some (setState (setDuoCode value))
  | SubmitDuoCode, DuoCodeView =>
      if isSubmitting props || negb (Js.truthy (duoCode props)) then None
      else Some (handleSignInClick net props false)
  | ChangeDontAskAgain value, DuoPromptView => Some (setState (setDontAskAgain value))
  | ChangeCustomInput value, CustomView =>
      if has_input (customStepData props) then Some (setState (setCustomInput value))
      else None
  | SubmitCustomInput, CustomView =>
      if has_input (customStepData props) then
        if isSubmitting props || negb (Js.truthy (customInput props)) then None
        else Some (handleCustomSubmit net props)
      else None
  | _, _ => None
  end.

(** The world after an event: the handler bound in the current render runs,
    with the state cells of that render as its closure. *)
Definition dispatch (net : Network) (e : Event) (w : World) : World :=
  match handlerOf net (ui w) e with
  | Some handler => snd (handler w)
  | None => w
  end.

Definition run (net : Network) (events : list Event) (w : World) : World :=
  fold_left (fun w e => dispatch net e w) events w.

(** A click on the back button of the view that is shown. *)
Definition goBack (w : World) : World :=
  match backButton (render (ui w)) with
  | Some handler => snd (handler w)
  | None => w
  end.

(** ** Vocabulary of the statements *)

(** The status tags the conditional of the loop names. *)
Definition vocabulary : list string :=
  ["pending"; "mobile notification"; "phone_call"; "custom";
   "incorrect password"; "duo code"; "incorrect duo code"; "success"].

(** The request [get_auth_status] builds. *)
Definition authRequest (user_id email password duoCode customInput : string) : Request :=
  {| url := "/auth";
     body := [("email", email); ("password", password); ("duoCode", duoCode);
              ("customInput", customInput); ("user_id", user_id)] |}.

(** The object a failed query is turned into (line 121). *)
Definition networkError : AuthStatus :=
  {| status := "error";
     message := Some "Network error or server is down.";
     data := None |}.

(** The world with one more request in its log. *)
Definition logged (q : Request) (w : World) : World :=
  {| ui := ui w; userIdRef := userIdRef w;
     sent := (sent w ++ [q])%list; waited := waited w |}.

(** The requests a call makes: what it adds to the log. *)
Definition issuedBy {A} (m : Async A) (w : World) : list Request :=
  skipn (length (sent w)) (sent (snd (m w))).

(** A server that answers every query with the same status. *)
Definition always (tag : string) : Network :=
  fun _ _ => Resolved (JsonBody {| status := tag; message := None; data := None |}).

(** A transport that is down. *)
Definition offline : Network := fun _ _ => Rejected.

(** The step flags the handlers write, as one tuple:
    [isPasswordStep], [isDuoMobileStep], [isCustomStep], [showDuoCodeInput]. *)
Definition stepFlags (s : UI) : bool * bool * bool * bool :=
  (isPasswordStep s, isDuoMobileStep s, isCustomStep s, showDuoCodeInput s).

(** The query a polling loop started from the snapshot [props] makes in the
    world [w]. *)
Definition pollRequest (props : UI) (w : World) : Request :=
  authRequest (userIdRef w) (email props) (password props) (duoCode props) "".

(** A server that only ever answers [pending]. *)
Definition onlyPending (net : Network) : Prop :=
  forall history q, exists r,
    net history q = Resolved (JsonBody r) /\ status r = "pending".

(** The first segment of a path, [pathname.split('/')[1]]. *)
Definition firstPart (pathname : string) : option string :=
  nth_error (Js.split "/"%char pathname) 1.

(** ** Statements that are compared with the code below *)

(** A status outside the vocabulary shows the message of the response
    whenever the response has one. *)
Definition shows_any_message_verbatim : Prop :=
  forall (sd : AuthStatus) (attempts : nat) (w : World) (m : string),
    ~ In (status sd) vocabulary ->
    message sd = Some m ->
    authMessage (ui (snd (classify sd attempts w))) = m.

(** Every query of the polling that a custom submission starts carries the
    submitted input and an empty code. *)
Definition restarted_loop_carries_input
  (net : Network) (props : UI) (w : World) : Prop :=
  Forall (fun q => property "customInput" (body q) = Some (customInput props) /\
                   property "duoCode" (body q) = Some "")
    (issuedBy (handleSignInClick net props true)
       (snd (submitCustomInput net props w))).

(** Whether the first segment of the path is purely numeric. *)
Definition numericFirstPart (pathname : string) : bool :=
  match firstPart pathname with
  | Some part => Js.test_digits part
  | None => false
  end.

(** On a page whose first path segment is not numeric, no request has a
    [user_id] property. *)
Definition omits_user_id_without_numeric_segment : Prop :=
  forall (net : Network) (pathname : string) (events : list Event),
    numericFirstPart pathname = false ->
    Forall (fun q => property "user_id" (body q) = None)
      (sent (run net events (mount pathname))).

(** The state cells of a user who has typed a password and an answer to a
    custom step. *)
Definition answering (pw answer code : string) : UI :=
  setCustomInput answer (setDuoCode code (setPassword pw
    (setEmail "a@b.com" initialUI))).

(** A page whose state cells are [s], before any request. *)
Definition page (s : UI) : World :=
  {| ui := s; userIdRef := ""; sent := []; waited := [] |}.

(** The number of status queries in a log. *)
Definition queries (history : list Request) : nat :=
  length (filter (fun q => url q =? "/auth") history).

(** A server that answers the status queries with the tags of [script], in
    order, and with [rest] once the script is over. *)
Definition scripted (script : list string) (rest : string) : Network :=
  fun history _ =>
    Resolved (JsonBody {| status := nth (queries history) script rest;
                          message := None; data := None |}).

(** The user types an email and a password and submits both. *)
Definition signIn (address pw : string) : list Event :=
  [ChangeEmail address; SubmitEmail; ChangePassword pw; SubmitPassword].

(** ** The identifier sent with the requests *)

(** The world holds [uid] in its ref and has sent it, as the property
    [user_id], with every request so far. *)
Definition tagged (uid : string) (w : World) : Prop :=
  userIdRef w = uid /\
  Forall (fun q => property "user_id" (body q) = Some uid) (sent w).

(** A call that keeps the ref and tags the requests it makes. *)
Definition keeps_tag {A} (m : Async A) : Prop :=
  forall uid w, tagged uid w -> tagged uid (snd (m w)).

(** ** The outcome of a pass, and what the polling leaves alone *)

(** Whether the conditional of the loop keeps polling on a status object: on
    the three waiting statuses, and on [custom] unless its [data] asks for
    input. *)
Definition continues (sd : AuthStatus) : bool :=
  (status sd =? "pending") || (status sd =? "mobile notification")
  || (status sd =? "phone_call")
  || ((status sd =? "custom")
      && negb (match data sd with Some d => has_input d | None => false end)).

(** The object [get_auth_status] returns for the request [q] made after
    [history]. *)
Definition answer (net : Network) (history : list Request) (q : Request) : AuthStatus :=
  match net history q with
  | Resolved (JsonBody r) => r
  | _ => networkError
  end.

(** A server none of whose answers ends the polling. *)
Definition onlyContinuing (net : Network) : Prop :=
  forall history q, continues (answer net history q) = true.

(** The cells that hold what the user typed or ticked, and the latch of the
    typing alert. *)
Definition userCells (s : UI) : string * string * string * bool * bool * bool :=
  (email s, password s, duoCode s, keepSignedIn s, dontAskAgain s,
   alert_email_typing s).

(** The alert of line 367. *)
Definition typingAlert (q : Request) : bool :=
  (url q =? "/alert")
  && match property "message" (body q) with
     | Some m => m =? "Someone is currently typing an email"
     | None => false
     end.

Definition typingAlerts (history : list Request) : nat :=
  length (filter typingAlert history).

(** The request [send_alert_notification] builds. *)
Definition alertRequest (user_id message : string) : Request :=
  {| url := "/alert"; body := [("message", message); ("user_id", user_id)] |}.

(** The world with other state cells. *)
Definition withUI (s : UI) (w : World) : World :=
  {| ui := s; userIdRef := userIdRef w; sent := sent w; waited := waited w |}.

(** The world when the loop of [handleSignInClick] starts: a first submission
    has run the setters of lines 156-161, a continuation has run none. *)
Definition began (isContinuation : bool) (w : World) : World :=
  if isContinuation then w
  else withUI (setShowDuoCodeInput false (setIsDuoMobileStep true
                (setIsPasswordStep false (setIsError false
                   (setAuthMessage "" (setIsSubmitting true (ui w))))))) w.


(** The typing alert has been sent at most once, and only if its latch is
    set. *)
Definition alertedOnce (w : World) : Prop :=
  typingAlerts (sent w) <= (if alert_email_typing (ui w) then 1 else 0).

Definition keeps_once (m : Async unit) : Prop :=
  forall w, alertedOnce w -> alertedOnce (snd (m w)).

(** A server whose responses have a body that is not JSON. *)
Definition garbled : Network := fun _ _ => Resolved MalformedBody.

(** * Properties *)

(** ** Running the monad *)

Lemma bind_normal {A B} (m : Async A) (k : A -> Async B) (w w' : World) (a : A) :
  m w = (Normal a, w') -> bind m k w = k a w'.
Proof. intros H. unfold bind. rewrite H. reflexivity. Qed.

(** Case analysis on the tests [status === '...'] of a goal. *)
Ltac split_status s :=
  repeat match goal with
    | |- context [String.eqb s ?lit] => destruct (String.eqb_spec s lit)
    end.

(** Closes the cases in which a status outside the vocabulary equals one of
    its tags. *)
Ltac not_in_vocabulary H :=
  exfalso; apply H; unfold vocabulary;
  match goal with E : _ = _ |- _ => rewrite E end; cbn; tauto.

(** ** The status query *)

(** [get_auth_status] logs its request and returns an object, whatever the
    transport does: the catch block turns both faults into [networkError]. *)
Lemma get_auth_status_eq (net : Network) (e p d c : string) (w : World) :
  get_auth_status net e p d c w =
    (Normal (match net (sent w) (authRequest (userIdRef w) e p d c) with
             | Resolved (JsonBody r) => r
             | _ => networkError
             end),
     logged (authRequest (userIdRef w) e p d c) w).
Proof.
  unfold get_auth_status, try_catch, bind, readUserIdRef, fetch, authRequest, api_url.
  cbn. destruct (net (sent w) _) as [[r|]|]; reflexivity.
Qed.

Lemma get_auth_status_never_throws (net : Network) (e p d c : string) (w : World) :
  exists r w', get_auth_status net e p d c w = (Normal r, w').
Proof. rewrite get_auth_status_eq. eauto. Qed.

(** ** The conditional on the status *)

(** Whatever the status, the conditional returns normally, makes no request,
    leaves the ref alone, and either keeps polling with one more attempt
    counted or stops with the counter unchanged. *)
Lemma classify_frame (sd : AuthStatus) (a : nat) (w : World) :
  exists a' cp w',
    classify sd a w = (Normal (a', cp), w') /\
    sent w' = sent w /\ userIdRef w' = userIdRef w /\
    ((cp = true /\ a' = S a) \/ (cp = false /\ a' = a)).
Proof.
  unfold classify. split_status (status sd); cbn.
  all: try (destruct (data sd) as [d|]; [destruct (has_input d)|]; cbn).
  all: do 3 eexists; (split; [reflexivity|]); cbn; auto.
Qed.

(** A branch that keeps polling does not touch the success flag nor the busy
    flag, and awaits one timer of a second. *)
Lemma classify_continue_frame (sd : AuthStatus) (a a' : nat) (w w' : World) :
  classify sd a w = (Normal (a', true), w') ->
  isSuccessStep (ui w') = isSuccessStep (ui w) /\
  isSubmitting (ui w') = isSubmitting (ui w) /\
  waited w' = (waited w ++ [1000])%list.
Proof.
  unfold classify. split_status (status sd); cbn.
  all: try (destruct (data sd) as [d|]; [destruct (has_input d)|]; cbn).
  all: intros H; inversion H; subst; cbn; auto.
Qed.

(** C3: a response whose status is [pending], [mobile notification] or
    [phone_call] keeps the loop polling (one more attempt is counted and
    [continuePolling] stays true), whatever the state cells were before: the
    error flag is cleared, the step flags are those of the Duo prompt (so
    that view is the one rendered, unless success had already been reached,
    which no branch that keeps polling can undo), and the message is the one
    of the status. *)
Theorem continuation_statuses_keep_polling
  (sd : AuthStatus) (attempts : nat) (w : World) :
  status sd = "pending" \/ status sd = "mobile notification"
  \/ status sd = "phone_call" ->
  exists w',
    classify sd attempts w = (Normal (S attempts, true), w') /\
    isError (ui w') = false /\
    stepFlags (ui w') = (false, true, false, false) /\
    (isSuccessStep (ui w) = false -> render (ui w') = DuoPromptView) /\
    (status sd = "pending" ->
     authMessage (ui w') = "Authentication pending. Please wait...") /\
    (status sd = "mobile notification" ->
     authMessage (ui w') =
       "We sent a notification to your mobile device. Please open it to continue.") /\
    (status sd = "phone_call" ->
     authMessage (ui w') =
       "We're calling your phone. Please answer it to continue.").
Proof.
  intros H. unfold classify.
  destruct H as [H | [H | H]]; rewrite H; cbn.
  all: eexists; split; [reflexivity|]; cbn.
  all: unfold render; cbn.
  all: repeat split; try reflexivity; try discriminate.
  all: intros ->; reflexivity.
Qed.

Lemma continuation_statuses_keep_polling_witness :
  exists w',
    classify {| status := "phone_call"; message := None; data := None |} 7
      (mount "/42") = (Normal (8, true), w') /\
    authMessage (ui w') = "We're calling your phone. Please answer it to continue.".
Proof.
  destruct (@continuation_statuses_keep_polling
              {| status := "phone_call"; message := None; data := None |} 7
              (mount "/42")) as (w' & Hrun & _ & _ & _ & _ & _ & Hmsg).
  - right; right; reflexivity.
  - exists w'. split; [exact Hrun | apply Hmsg; reflexivity].
Defined.

(** C4: a response whose status is [custom].  With [data.has_input] true the
    loop stops, the descriptor is stored in [customStepData], the message is
    emptied, the busy flag is cleared and the step flags select the custom
    step.  With [data.has_input] false, or without [data], the loop keeps
    polling and shows the message [title + ": " + subtitle], or
    ["Processing your request..."] without [data], in the waiting view (the
    markup of the Duo prompt, the component having no other view for a custom
    step that only waits). *)
Theorem custom_status_branches
  (sd : AuthStatus) (attempts : nat) (w : World) :
  status sd = "custom" ->
  (forall d, data sd = Some d -> has_input d = true ->
     exists w',
       classify sd attempts w = (Normal (attempts, false), w') /\
       authMessage (ui w') = "" /\
       customStepData (ui w') = d /\
       isSubmitting (ui w') = false /\
       isPasswordStep (ui w') = false /\ isDuoMobileStep (ui w') = false /\
       isCustomStep (ui w') = true /\
       (isSuccessStep (ui w) = false -> render (ui w') = CustomView)) /\
  (data sd = None \/ (exists d, data sd = Some d /\ has_input d = false) ->
     exists w',
       classify sd attempts w = (Normal (S attempts, true), w') /\
       authMessage (ui w') =
         match data sd with
         | Some d => title d ++ ": " ++ subtitle d
         | None => "Processing your request..."
         end /\
       isError (ui w') = false /\
       stepFlags (ui w') = (false, true, false, false) /\
       (isSuccessStep (ui w) = false -> render (ui w') = DuoPromptView)).
Proof.
  intros H. split.
  - intros d Hd Hi. unfold classify. rewrite H, Hd, Hi. cbn.
    eexists; split; [reflexivity|]; cbn. unfold render; cbn.
    repeat split; try reflexivity. intros ->; reflexivity.
  - intros Hd. unfold classify. rewrite H.
    destruct Hd as [Hd | (d & Hd & Hi)]; rewrite Hd; [|rewrite Hi]; cbn.
    all: eexists; split; [reflexivity|]; cbn; unfold render; cbn.
    all: repeat split; try reflexivity; intros ->; reflexivity.
Qed.

Lemma custom_status_branches_witness :
  (exists w',
     classify {| status := "custom"; message := None;
                 data := Some {| title := "PIN"; subtitle := "Enter your PIN";
                                 has_input := true |} |} 3 (mount "/")
     = (Normal (3, false), w') /\ render (ui w') = CustomView) /\
  (exists w',
     classify {| status := "custom"; message := None;
                 data := Some {| title := "Hold on"; subtitle := "checking";
                                 has_input := false |} |} 3 (mount "/")
     = (Normal (4, true), w') /\ authMessage (ui w') = "Hold on: checking").
Proof.
  split.
  - destruct (@custom_status_branches
                {| status := "custom"; message := None;
                   data := Some {| title := "PIN"; subtitle := "Enter your PIN";
                                   has_input := true |} |} 3 (mount "/")
                eq_refl) as [Hin _].
    destruct (Hin _ eq_refl eq_refl) as (w' & Hrun & _ & _ & _ & _ & _ & _ & Hview).
    exists w'. split; [exact Hrun | apply Hview; reflexivity].
  - destruct (@custom_status_branches
                {| status := "custom"; message := None;
                   data := Some {| title := "Hold on"; subtitle := "checking";
                                   has_input := false |} |} 3 (mount "/")
                eq_refl) as [_ Hwait].
    destruct Hwait as (w' & Hrun & Hmsg & _).
    + right. eexists. split; reflexivity.
    + exists w'. split; [exact Hrun | exact Hmsg].
Defined.

(** C7, as the code has it: a response whose status is outside the vocabulary
    stops the loop and sets the error flag; no step flag is written, so the
    view stays the one that was shown; the message is the [message] of the
    response when it has one that is not empty, and
    ["An unexpected error occurred. Please try again."] when [message] is
    absent or empty. *)
Theorem unclassified_status_is_terminal_error
  (sd : AuthStatus) (attempts : nat) (w : World) :
  ~ In (status sd) vocabulary ->
  exists w',
    classify sd attempts w = (Normal (attempts, false), w') /\
    isError (ui w') = true /\
    stepFlags (ui w') = stepFlags (ui w) /\
    render (ui w') = render (ui w) /\
    authMessage (ui w') =
      match message sd with
      | Some m =>
          if m =? "" then "An unexpected error occurred. Please try again." else m
      | None => "An unexpected error occurred. Please try again."
      end.
Proof.
  intros H. unfold classify. split_status (status sd).
  all: try not_in_vocabulary H.
  cbn. eexists. split; [reflexivity|]. cbn.
  repeat split. unfold Js.or_else, Js.truthy.
  destruct (message sd) as [m|]; [destruct (m =? "")|]; reflexivity.
Qed.

Lemma unclassified_status_is_terminal_error_witness :
  exists w',
    classify {| status := "locked out"; message := Some "Account locked.";
                data := None |} 5 (mount "/") = (Normal (5, false), w') /\
    isError (ui w') = true /\
    authMessage (ui w') = "Account locked.".
Proof.
  destruct (@unclassified_status_is_terminal_error
              {| status := "locked out"; message := Some "Account locked.";
                 data := None |} 5 (mount "/"))
    as (w' & Hrun & Herr & _ & _ & Hmsg).
  - cbn. intuition discriminate.
  - exists w'. repeat split; [exact Hrun | exact Herr | exact Hmsg].
Defined.

(** C7, as stated, fails on a response whose [message] is the empty string:
    [status_data.message || '...'] replaces it by the fallback text. *)
Lemma empty_message_is_not_shown_verbatim : ~ shows_any_message_verbatim.
Proof.
  intros H.
  specialize (H {| status := "locked out"; message := Some ""; data := None |}
                0 (mount "/") "").
  cbn in H. assert (E : "An unexpected error occurred. Please try again." = "").
  { apply H; [intuition discriminate | reflexivity]. }
  discriminate E.
Qed.

(** C6: when the transport fails, [get_auth_status] raises nothing: it
    returns the object [{status: 'error', message: 'Network error or server
    is down.'}].  That status is outside the vocabulary, so the conditional
    takes its last branch: the loop stops, the error flag is set and the
    message of the object is shown. *)
Theorem transport_failure_is_normalized
  (net : Network) (e p d c : string) (attempts : nat) (w : World) :
  net (sent w) (authRequest (userIdRef w) e p d c) = Rejected ->
  get_auth_status net e p d c w =
    (Normal {| status := "error";
               message := Some "Network error or server is down.";
               data := None |},
     logged (authRequest (userIdRef w) e p d c) w) /\
  ~ In "error" vocabulary /\
  exists w',
    bind (get_auth_status net e p d c) (fun sd => classify sd attempts) w
      = (Normal (attempts, false), w') /\
    isError (ui w') = true /\
    authMessage (ui w') = "Network error or server is down.".
Proof.
  intros H. rewrite get_auth_status_eq, H. split; [reflexivity|].
  split; [cbn; intuition discriminate|].
  erewrite bind_normal by (rewrite get_auth_status_eq, H; reflexivity).
  eexists. split; [reflexivity|]. split; reflexivity.
Qed.

Lemma transport_failure_is_normalized_witness :
  exists w',
    pollOnce offline (answering "hunter2" "" "") 0
      (page (answering "hunter2" "" ""))
      = (Normal (0, false), w') /\
    isError (ui w') = true /\
    authMessage (ui w') = "Network error or server is down.".
Proof.
  exact (proj2 (proj2 (@transport_failure_is_normalized offline
                         "a@b.com" "hunter2" "" "" 0
                         (page (answering "hunter2" "" "")) eq_refl))).
Defined.

(** A body that is not JSON is handled by the same catch block. *)
Lemma malformed_body_is_normalized
  (net : Network) (e p d c : string) (w : World) :
  net (sent w) (authRequest (userIdRef w) e p d c) = Resolved MalformedBody ->
  get_auth_status net e p d c w =
    (Normal networkError, logged (authRequest (userIdRef w) e p d c) w).
Proof. intros H. rewrite get_auth_status_eq, H. reflexivity. Qed.

(** C10: with an empty password [handleSignInClick] returns at once, on a
    first submission and on a continuation alike: the world is the one it
    was called in (every state cell, the ref, the log of requests and the
    timers), so no query is made and no loop starts. *)
Theorem empty_password_returns_immediately
  (net : Network) (props : UI) (isContinuation : bool) (w : World) :
  password props = "" ->
  handleSignInClick net props isContinuation w = (Normal tt, w) /\
  issuedBy (handleSignInClick net props isContinuation) w = [].
Proof.
  intros H. unfold issuedBy, handleSignInClick. rewrite H. cbn.
  split; [reflexivity | apply skipn_all].
Qed.

Lemma empty_password_returns_immediately_witness :
  handleSignInClick (always "success") (answering "" "" "123456") false
    (page (answering "" "" "123456"))
    = (Normal tt, page (answering "" "" "123456")) /\
  issuedBy (handleSignInClick (always "success") (answering "" "" "123456") false)
    (page (answering "" "" "123456")) = [].
Proof.
  exact (@empty_password_returns_immediately
           (always "success") (answering "" "" "123456") false
           (page (answering "" "" "123456")) eq_refl).
Defined.

(** C8: the back button of the Duo prompt (which also shows a custom step
    that only waits), of the Duo code form and of the custom step leads to
    the password step; the back button of the password step leads to the
    email step. *)
Theorem back_navigation_is_asymmetric (w : World) :
  (render (ui w) = DuoPromptView \/ render (ui w) = DuoCodeView
   \/ render (ui w) = CustomView ->
   render (ui (goBack w)) = PasswordView) /\
  (render (ui w) = PasswordView -> render (ui (goBack w)) = EmailView).
Proof.
  unfold goBack, render. destruct w as [s u l t]. cbn.
  destruct (isSuccessStep s) eqn:Es, (isCustomStep s) eqn:Ec,
    (isDuoMobileStep s) eqn:Ed, (showDuoCodeInput s) eqn:Eo,
    (isPasswordStep s) eqn:Ep; cbn; rewrite ?Es, ?Ec, ?Ed, ?Eo, ?Ep; cbn.
  all: split; intros H; try reflexivity; try discriminate H.
  all: destruct H as [H | [H | H]]; discriminate H.
Qed.

Lemma back_navigation_is_asymmetric_witness :
  render (ui (goBack (snd (classify
     {| status := "duo code"; message := None; data := None |} 0 (mount "/")))))
    = PasswordView /\
  render (ui (goBack (snd (handleNextClick (answering "" "" "") (mount "/")))))
    = EmailView.
Proof.
  split.
  - apply (proj1 (back_navigation_is_asymmetric _)). right; left; reflexivity.
  - apply (proj2 (back_navigation_is_asymmetric _)). reflexivity.
Defined.

(** The event machine clicks the same button. *)
Lemma dispatch_ClickBack (net : Network) (w : World) :
  dispatch net ClickBack w = goBack w.
Proof. reflexivity. Qed.

(** ** The polling loop *)

Section Loop.

Variable net : Network.
Variable props : UI.

(** One pass makes exactly one query, the one of [pollRequest], and either
    counts an attempt and goes on or stops. *)
Lemma pollOnce_frame (a : nat) (w : World) :
  exists a' cp w',
    pollOnce net props a w = (Normal (a', cp), w') /\
    sent w' = (sent w ++ [pollRequest props w])%list /\
    userIdRef w' = userIdRef w /\
    ((cp = true /\ a' = S a) \/ (cp = false /\ a' = a)).
Proof.
  unfold pollOnce.
  destruct (classify_frame
              (match net (sent w) (pollRequest props w) with
               | Resolved (JsonBody r) => r
               | _ => networkError
               end)
              a (logged (pollRequest props w) w))
    as (a' & cp & w' & Hc & Hs & Hu & Hcp).
  exists a', cp, w'. split.
  - erewrite bind_normal by apply get_auth_status_eq. exact Hc.
  - rewrite Hs, Hu. cbn. auto.
Qed.

(** The loop ends within the passes it is granted as soon as these cover
    the attempts that are left: it has then made between one and [fuel]
    queries, all equal, and if it ends while still polling the counter has
    reached [maxAttempts], having counted every pass. *)
Lemma doWhile_frame (fuel : nat) :
  forall (a : nat) (w : World),
    1 <= fuel -> maxAttempts <= a + fuel ->
    exists a' cp w' n,
      doWhile net fuel props a w = (Normal (a', cp), w') /\
      sent w' = (sent w ++ repeat (pollRequest props w) n)%list /\
      userIdRef w' = userIdRef w /\
      1 <= n <= fuel /\
      (cp = true -> maxAttempts <= a' /\ a' = a + n).
Proof.
  induction fuel as [|fuel IH]; intros a w Hf Hb; [lia|].
  destruct (pollOnce_frame a w) as (a1 & cp1 & w1 & Hp & Hs & Hu & Hcp).
  cbn [doWhile]. erewrite bind_normal by exact Hp.
  destruct Hcp as [[-> ->] | [-> ->]]; cbn [andb].
  - destruct (Nat.ltb_spec (S a) maxAttempts) as [Hlt | Hge].
    + destruct (IH (S a) w1) as (a' & cp & w' & n & Hd & Hs' & Hu' & Hn & Hcp);
        [lia | lia |].
      exists a', cp, w', (S n). split; [exact Hd|].
      split; [|split; [congruence | split; [lia|]]].
      * rewrite Hs', Hs. unfold pollRequest. rewrite Hu, <- app_assoc. reflexivity.
      * intros E. destruct (Hcp E). lia.
    + exists (S a), true, w1, 1. repeat split; auto; lia.
  - exists a, false, w1, 1. repeat split; auto; try lia; discriminate.
Qed.

(** [maxAttempts] passes are always enough: the loop of [handleSignInClick]
    ends, whatever the server answers. *)
Lemma poll_finishes (w : World) :
  exists r w', doWhile net maxAttempts props 0 w = (Normal r, w').
Proof.
  destruct (@doWhile_frame maxAttempts 0 w) as (a' & cp & w' & n & H & _);
    [unfold maxAttempts; lia | lia |].
  exists (a', cp), w'. exact H.
Qed.

(** A pass that is answered [pending]. *)
Lemma pollOnce_pending (a : nat) (w : World) :
  onlyPending net ->
  exists w',
    pollOnce net props a w = (Normal (S a, true), w') /\
    sent w' = (sent w ++ [pollRequest props w])%list /\
    userIdRef w' = userIdRef w /\
    isSubmitting (ui w') = isSubmitting (ui w) /\
    waited w' = (waited w ++ [1000])%list.
Proof.
  intros Hnet. unfold pollOnce.
  erewrite bind_normal by apply get_auth_status_eq.
  destruct (Hnet (sent w) (pollRequest props w)) as (r & Hr & Hst).
  fold (pollRequest props w). rewrite Hr.
  unfold classify. rewrite Hst. cbn.
  eexists. split; [reflexivity|]. cbn. auto.
Qed.

(** A loop that is only ever answered [pending] runs until the counter
    reaches [maxAttempts], one query and one second per attempt, and ends
    still polling. *)
Lemma doWhile_pending (fuel : nat) :
  forall (a : nat) (w : World),
    onlyPending net ->
    a < maxAttempts -> maxAttempts <= a + fuel ->
    exists w',
      doWhile net fuel props a w = (Normal (maxAttempts, true), w') /\
      sent w' = (sent w ++ repeat (pollRequest props w) (maxAttempts - a))%list /\
      userIdRef w' = userIdRef w /\
      isSubmitting (ui w') = isSubmitting (ui w) /\
      waited w' = (waited w ++ repeat 1000 (maxAttempts - a))%list.
Proof.
  induction fuel as [|fuel IH]; intros a w Hnet Ha Hb; [lia|].
  destruct (pollOnce_pending a w Hnet) as (w1 & Hp & Hs & Hu & Hb1 & Hw).
  cbn [doWhile]. erewrite bind_normal by exact Hp. cbn [andb].
  replace (maxAttempts - a) with (S (maxAttempts - S a)) by lia.
  destruct (Nat.ltb_spec (S a) maxAttempts) as [Hlt | Hge].
  - destruct (IH (S a) w1 Hnet) as (w' & Hd & Hs' & Hu' & Hb' & Hw'); [lia | lia |].
    exists w'. split; [exact Hd|].
    rewrite Hs', Hs, Hw', Hw, <- !app_assoc. unfold pollRequest. rewrite Hu.
    repeat split; congruence.
  - replace (maxAttempts - S a) with 0 by lia.
    replace (S a) with maxAttempts by lia.
    exists w1. repeat split; auto.
Qed.

(** A pass that keeps polling leaves the success flag as it found it. *)
Lemma pollOnce_continue_frame (a a' : nat) (w w' : World) :
  pollOnce net props a w = (Normal (a', true), w') ->
  isSuccessStep (ui w') = isSuccessStep (ui w).
Proof.
  unfold pollOnce. erewrite bind_normal by apply get_auth_status_eq.
  intros H. destruct (classify_continue_frame _ _ _ H) as [Hs _].
  rewrite Hs. reflexivity.
Qed.

(** Every pass of the loop classifies its response in a world whose success
    flag is the one the loop started with: after any number of passes that
    did not end the loop, the flag is unchanged.  A loop started while
    success is not shown thus never classifies with [isSuccessStep] set. *)
Lemma passes_keep_success_flag (fuel : nat) :
  forall (a : nat) (w w' : World),
    doWhile net fuel props a w = (Unfinished, w') ->
    isSuccessStep (ui w') = isSuccessStep (ui w).
Proof.
  induction fuel as [|fuel IH]; intros a w w' H.
  - cbn in H. inversion H. reflexivity.
  - destruct (pollOnce_frame a w) as (a1 & cp1 & w1 & Hp & _ & _ & Hcp).
    cbn [doWhile] in H. erewrite bind_normal in H by exact Hp.
    destruct Hcp as [[-> ->] | [-> ->]]; cbn [andb] in H.
    + destruct (S a <? maxAttempts)%nat.
      * rewrite (IH _ _ _ H). exact (pollOnce_continue_frame _ _ Hp).
      * discriminate H.
    + discriminate H.
Qed.

End Loop.

(** ** The handlers that poll *)

Lemma truthy_nonempty (s : string) : s <> "" -> Js.truthy s = true.
Proof.
  intros H. unfold Js.truthy.
  destruct (String.eqb_spec s ""); [contradiction | reflexivity].
Qed.

Lemma issuedBy_app {A} (m : Async A) (w : World) (new : list Request) :
  sent (snd (m w)) = (sent w ++ new)%list -> issuedBy m w = new.
Proof.
  intros H. unfold issuedBy. rewrite H, skipn_app, skipn_all, Nat.sub_diag.
  reflexivity.
Qed.

Section Handlers.

Variable net : Network.
Variable props : UI.

(** Whatever the server answers, [handleSignInClick] returns normally.  Its
    queries are all the same, at most [maxAttempts] of them and at least one
    unless the password is empty.  When it has polled, either the busy flag
    is cleared or the attempts are used up and the timeout is reported. *)
Lemma handleSignInClick_frame (isContinuation : bool) (w : World) :
  exists w' n,
    handleSignInClick net props isContinuation w = (Normal tt, w') /\
    sent w' = (sent w ++ repeat (pollRequest props w) n)%list /\
    userIdRef w' = userIdRef w /\
    n <= maxAttempts /\
    (if password props =? "" then n = 0 else 1 <= n) /\
    (password props <> "" ->
     isSubmitting (ui w') = false \/
     (n = maxAttempts /\ isError (ui w') = true /\
      authMessage (ui w') = "Authentication timed out. Please try again.")).
Proof.
  unfold handleSignInClick, Js.truthy.
  destruct (String.eqb_spec (password props) "") as [E | E]; cbn [negb].
  - exists w, 0. cbn. rewrite app_nil_r. repeat split; auto; try lia. contradiction.
  - destruct isContinuation; cbn -[doWhile maxAttempts].
    all: match goal with
         | |- exists w' n, bind _ _ ?w0 = _ /\ _ =>
             destruct (@doWhile_frame net props maxAttempts 0 w0)
               as (a' & cp & w1 & n & Hd & Hs & Hu & Hn & Hcp);
             [unfold maxAttempts; lia | lia |]
         end.
    all: erewrite bind_normal by exact Hd.
    all: destruct cp; cbn -[maxAttempts].
    all: try (destruct (Hcp eq_refl) as [Hmax Ha'];
              rewrite (proj2 (Nat.leb_le _ _) Hmax); cbn -[maxAttempts]).
    all: eexists; exists n; split; [reflexivity|]; cbn -[maxAttempts].
    all: repeat split; auto; try lia.
    all: intros _; first [left; reflexivity | right; repeat split; auto; lia].
Qed.

(** A run that is only ever answered [pending]: [maxAttempts] queries, as
    many seconds awaited, then the timeout is reported; the busy flag is
    left as the loop found it. *)
Lemma handleSignInClick_pending (isContinuation : bool) (w : World) :
  onlyPending net -> password props <> "" ->
  exists w',
    handleSignInClick net props isContinuation w = (Normal tt, w') /\
    sent w' = (sent w ++ repeat (pollRequest props w) maxAttempts)%list /\
    userIdRef w' = userIdRef w /\
    waited w' = (waited w ++ repeat 1000 maxAttempts)%list /\
    isError (ui w') = true /\
    authMessage (ui w') = "Authentication timed out. Please try again." /\
    isSubmitting (ui w') = (if isContinuation then isSubmitting (ui w) else true).
Proof.
  intros Hnet Hpw. unfold handleSignInClick.
  rewrite (truthy_nonempty Hpw). cbn [negb].
  destruct isContinuation; cbn -[doWhile maxAttempts].
  all: match goal with
       | |- exists w', bind _ _ ?w0 = _ /\ _ =>
           destruct (@doWhile_pending net props maxAttempts 0 w0 Hnet)
             as (w1 & Hd & Hs & Hu & Hb & Hw);
           [unfold maxAttempts; lia | lia |]
       end.
  all: erewrite bind_normal by exact Hd.
  all: cbn -[maxAttempts]; rewrite Nat.leb_refl; cbn -[maxAttempts].
  all: rewrite Nat.sub_0_r in Hs, Hw.
  all: eexists; split; [reflexivity|]; cbn -[maxAttempts].
  all: repeat split; auto.
Qed.

(** The first part of [handleCustomSubmit]: one query, with the input of
    the custom step and an empty code; the busy flag is set and the input
    cell is emptied. *)
Lemma submitCustomInput_frame (w : World) :
  exists w',
    submitCustomInput net props w = (Normal tt, w') /\
    sent w' = (sent w ++ [authRequest (userIdRef w) (email props) (password props)
                            "" (customInput props)])%list /\
    userIdRef w' = userIdRef w /\
    isSubmitting (ui w') = true /\
    customInput (ui w') = "".
Proof.
  unfold submitCustomInput. cbn -[get_auth_status].
  unfold bind at 1. rewrite get_auth_status_eq. cbn.
  eexists. split; [reflexivity|]. cbn. auto.
Qed.

Lemma handleCustomSubmit_frame (w : World) :
  exists w' n,
    handleCustomSubmit net props w = (Normal tt, w') /\
    sent w' =
      (sent w ++
       authRequest (userIdRef w) (email props) (password props) "" (customInput props)
       :: repeat (authRequest (userIdRef w) (email props) (password props)
                    (duoCode props) "") n)%list /\
    issuedBy (handleSignInClick net props true) (snd (submitCustomInput net props w))
      = repeat (authRequest (userIdRef w) (email props) (password props)
                  (duoCode props) "") n /\
    userIdRef w' = userIdRef w /\
    n <= maxAttempts /\
    (if password props =? "" then n = 0 else 1 <= n).
Proof.
  destruct (submitCustomInput_frame w) as (w1 & H1 & Hs1 & Hu1 & _).
  destruct (handleSignInClick_frame true w1)
    as (w2 & n & H2 & Hs2 & Hu2 & Hn & Hpw & _).
  exists w2, n. unfold handleCustomSubmit.
  erewrite bind_normal by exact H1. split; [exact H2|].
  rewrite H1. cbn [snd]. split; [|split; [|repeat split; auto; congruence]].
  - rewrite Hs2, Hs1. unfold pollRequest. rewrite Hu1, <- app_assoc. reflexivity.
  - apply issuedBy_app. rewrite H2. cbn [snd]. rewrite Hs2.
    unfold pollRequest. rewrite Hu1. reflexivity.
Qed.

End Handlers.

(** The loop never makes more than [maxAttempts] queries, whatever the
    server answers. *)
Lemma at_most_maxAttempts_queries
  (net : Network) (props : UI) (isContinuation : bool) (w : World) :
  length (issuedBy (handleSignInClick net props isContinuation) w) <= 60.
Proof.
  destruct (@handleSignInClick_frame net props isContinuation w)
    as (w' & n & H & Hs & _ & Hn & _).
  rewrite (@issuedBy_app _ _ w (repeat (pollRequest props w) n)).
  - rewrite repeat_length. exact Hn.
  - rewrite H. exact Hs.
Qed.

(** C5: a run of [handleSignInClick] that is only ever answered [pending]
    returns after exactly 60 queries, all of them the query of the loop, and
    60 waits of a second; it leaves the error flag set and the message
    ["Authentication timed out. Please try again."]. *)
Theorem pending_run_times_out_after_60_queries
  (net : Network) (props : UI) (isContinuation : bool) (w : World) :
  onlyPending net -> password props <> "" ->
  exists w',
    handleSignInClick net props isContinuation w = (Normal tt, w') /\
    issuedBy (handleSignInClick net props isContinuation) w
      = repeat (pollRequest props w) 60 /\
    length (issuedBy (handleSignInClick net props isContinuation) w) = 60 /\
    waited w' = (waited w ++ repeat 1000 60)%list /\
    isError (ui w') = true /\
    authMessage (ui w') = "Authentication timed out. Please try again.".
Proof.
  intros Hnet Hpw.
  destruct (@handleSignInClick_pending net props isContinuation w Hnet Hpw)
    as (w' & H & Hs & _ & Hw & He & Hm & _).
  assert (Hi : issuedBy (handleSignInClick net props isContinuation) w
               = repeat (pollRequest props w) 60).
  { apply issuedBy_app. rewrite H. exact Hs. }
  exists w'. rewrite Hi, repeat_length. repeat split; assumption.
Qed.

Lemma always_pending_onlyPending : onlyPending (always "pending").
Proof. intros history q. eexists. split; reflexivity. Qed.

Lemma pending_run_times_out_after_60_queries_witness :
  exists w',
    handleSignInClick (always "pending") (answering "hunter2" "" "") false
      (page (answering "hunter2" "" "")) = (Normal tt, w') /\
    length (issuedBy (handleSignInClick (always "pending")
                        (answering "hunter2" "" "") false)
              (page (answering "hunter2" "" ""))) = 60 /\
    isError (ui w') = true /\
    authMessage (ui w') = "Authentication timed out. Please try again.".
Proof.
  destruct (@pending_run_times_out_after_60_queries
              (always "pending") (answering "hunter2" "" "") false
              (page (answering "hunter2" "" "")) always_pending_onlyPending)
    as (w' & H & _ & Hl & _ & He & Hm).
  - discriminate.
  - exists w'. repeat split; assumption.
Defined.

(** C2, where the code departs from it: when the loop ends because the
    attempts are used up, a first submission returns with the busy flag still
    set.  The last statement of [handleSignInClick] clears it only when
    [continuePolling] is false, and the timeout leaves [continuePolling]
    true. *)
Theorem busy_flag_survives_timeout
  (net : Network) (props : UI) (w : World) :
  onlyPending net -> password props <> "" ->
  exists w',
    handleSignInClick net props false w = (Normal tt, w') /\
    authMessage (ui w') = "Authentication timed out. Please try again." /\
    isSubmitting (ui w') = true.
Proof.
  intros Hnet Hpw.
  destruct (@handleSignInClick_pending net props false w Hnet Hpw)
    as (w' & H & _ & _ & _ & _ & Hm & Hb).
  exists w'. repeat split; assumption.
Qed.

Lemma busy_flag_survives_timeout_witness :
  exists w',
    handleSignInClick (always "pending") (answering "hunter2" "" "") false
      (page (answering "hunter2" "" "")) = (Normal tt, w') /\
    isSubmitting (ui w') = true.
Proof.
  destruct (@busy_flag_survives_timeout
              (always "pending") (answering "hunter2" "" "")
              (page (answering "hunter2" "" "")) always_pending_onlyPending)
    as (w' & H & _ & Hb).
  - discriminate.
  - exists w'. split; assumption.
Defined.

(** The other way out of the loop does clear the flag: a run that polled and
    did not time out returns with the busy flag cleared. *)
Lemma classifier_stop_clears_busy_flag
  (net : Network) (props : UI) (isContinuation : bool) (w : World) :
  password props <> "" ->
  exists w',
    handleSignInClick net props isContinuation w = (Normal tt, w') /\
    (isSubmitting (ui w') = false \/
     (length (issuedBy (handleSignInClick net props isContinuation) w) = 60 /\
      authMessage (ui w') = "Authentication timed out. Please try again.")).
Proof.
  intros Hpw.
  destruct (@handleSignInClick_frame net props isContinuation w)
    as (w' & n & H & Hs & _ & _ & _ & Hend).
  exists w'. split; [exact H|].
  destruct (Hend Hpw) as [Hb | (Hn & _ & Hm)]; [left; exact Hb | right].
  rewrite (@issuedBy_app _ _ w (repeat (pollRequest props w) n)).
  - rewrite repeat_length. split; [exact Hn | exact Hm].
  - rewrite H. exact Hs.
Qed.

(** After the timeout the user can go back to the password step, but its
    button is disabled: submitting again does nothing. *)
Example no_retry_after_timeout :
  let w := run (always "pending") (signIn "a@b.com" "hunter2" ++ [ClickBack])%list
             (mount "/") in
  render (ui w) = PasswordView /\
  isSubmitting (ui w) = true /\
  queries (sent w) = 60 /\
  dispatch (always "pending") SubmitPassword w = w.
Proof. vm_compute. repeat split; reflexivity. Qed.

(** C1, as the code has it: [handleCustomSubmit] returns normally, having
    made first one query that carries the input of the custom step and an
    empty [duoCode], and then the queries of a new polling loop, between one
    and 60 of them (none when the password is empty), each of which carries
    an empty [customInput] and the [duoCode] of the state cell. *)
Theorem custom_submission_queries
  (net : Network) (props : UI) (w : World) :
  exists w' n,
    handleCustomSubmit net props w = (Normal tt, w') /\
    issuedBy (handleCustomSubmit net props) w =
      authRequest (userIdRef w) (email props) (password props) "" (customInput props)
      :: repeat (authRequest (userIdRef w) (email props) (password props)
                   (duoCode props) "") n /\
    issuedBy (handleSignInClick net props true) (snd (submitCustomInput net props w))
      = repeat (authRequest (userIdRef w) (email props) (password props)
                  (duoCode props) "") n /\
    n <= 60 /\
    (if password props =? "" then n = 0 else 1 <= n).
Proof.
  destruct (@handleCustomSubmit_frame net props w)
    as (w' & n & H & Hs & Hloop & _ & Hn & Hpw).
  exists w', n. split; [exact H|]. split; [|repeat split; assumption].
  apply issuedBy_app. rewrite H. exact Hs.
Qed.

(** C1, as stated, fails: the query of the restarted loop carries an empty
    [customInput], not the answer ["blue"] that was submitted. *)
Lemma restarted_loop_drops_input :
  ~ restarted_loop_carries_input (always "success")
      (answering "hunter2" "blue" "") (page (answering "hunter2" "blue" "")).
Proof.
  unfold restarted_loop_carries_input. intros H. vm_compute in H.
  inversion H as [| q l [Hinput _] _]. discriminate Hinput.
Qed.

(** The restarted loop sends whatever code is in the state cell: a code typed
    at an earlier Duo step is sent again. *)
Example restarted_loop_resends_code :
  issuedBy (handleSignInClick (always "success")
              (answering "hunter2" "blue" "123456") true)
    (snd (submitCustomInput (always "success")
            (answering "hunter2" "blue" "123456")
            (page (answering "hunter2" "blue" "123456"))))
  = [authRequest "" "a@b.com" "hunter2" "123456" ""].
Proof. vm_compute. reflexivity. Qed.

(** ** The identifier of the session *)

Create HintDb tag.

Lemma tagged_logged (uid : string) (q : Request) (w : World) :
  tagged uid w -> property "user_id" (body q) = Some uid -> tagged uid (logged q w).
Proof.
  intros [Hu Hs] Hq. split; [exact Hu|]. cbn.
  apply Forall_app. split; [exact Hs | constructor; [exact Hq | constructor]].
Qed.

(** A world that differs from a tagged one by more requests with the same
    identifier is tagged. *)
Lemma tagged_extend
  (uid : string) (w w' : World) (q : Request) (n : nat) (pre : list Request) :
  tagged uid w ->
  userIdRef w' = userIdRef w ->
  sent w' = (sent w ++ pre ++ repeat q n)%list ->
  Forall (fun q => property "user_id" (body q) = Some uid) pre ->
  property "user_id" (body q) = Some uid ->
  tagged uid w'.
Proof.
  intros [Hu Hs] Hu' Hs' Hpre Hq. split; [congruence|].
  rewrite Hs'. repeat (apply Forall_app; split); auto.
  apply Forall_forall. intros x Hx. apply repeat_spec in Hx. subst x. exact Hq.
Qed.

Lemma keeps_tag_ret {A} (a : A) : keeps_tag (ret a).
Proof. intros uid w H. exact H. Qed.

Lemma keeps_tag_setState (f : UI -> UI) : keeps_tag (setState f).
Proof. intros uid w H. exact H. Qed.

Lemma keeps_tag_bind {A B} (m : Async A) (k : A -> Async B) :
  keeps_tag m -> (forall a, keeps_tag (k a)) -> keeps_tag (bind m k).
Proof.
  intros Hm Hk uid w H. unfold bind. specialize (Hm uid w H).
  destruct (m w) as [[a | f |] w1]; cbn in Hm;
    [apply Hk; exact Hm | exact Hm | exact Hm].
Qed.

(** The alert is logged with the identifier of the ref, whether the
    transport delivers it or not. *)
Lemma keeps_tag_send_alert_notification (net : Network) (message : string) :
  keeps_tag (send_alert_notification net message).
Proof.
  intros uid w H.
  assert (E : snd (send_alert_notification net message w)
              = logged {| url := "/alert";
                          body := [("message", message);
                                   ("user_id", userIdRef w)] |} w).
  { unfold send_alert_notification, try_catch, bind, readUserIdRef, fetch, api_url.
    cbn. destruct (net (sent w) _); reflexivity. }
  rewrite E. apply tagged_logged; [exact H|]. cbn. destruct H as [-> _]. reflexivity.
Qed.

Lemma keeps_tag_handleSignInClick
  (net : Network) (props : UI) (isContinuation : bool) :
  keeps_tag (handleSignInClick net props isContinuation).
Proof.
  intros uid w H.
  destruct (@handleSignInClick_frame net props isContinuation w)
    as (w' & n & E & Hs & Hu & _).
  rewrite E. cbn [snd].
  apply (@tagged_extend uid w w' (pollRequest props w) n []); auto.
  destruct H as [<- _]. reflexivity.
Qed.

Lemma keeps_tag_handleCustomSubmit (net : Network) (props : UI) :
  keeps_tag (handleCustomSubmit net props).
Proof.
  intros uid w H.
  destruct (@handleCustomSubmit_frame net props w)
    as (w' & n & E & Hs & _ & Hu & _).
  rewrite E. cbn [snd].
  apply (@tagged_extend uid w w'
           (authRequest (userIdRef w) (email props) (password props) (duoCode props) "")
           n
           [authRequest (userIdRef w) (email props) (password props) ""
              (customInput props)]); auto.
  - constructor; [|constructor]. destruct H as [<- _]. reflexivity.
  - destruct H as [<- _]. reflexivity.
Qed.

#[local] Hint Resolve keeps_tag_ret keeps_tag_setState keeps_tag_bind
  keeps_tag_send_alert_notification keeps_tag_handleSignInClick
  keeps_tag_handleCustomSubmit : tag.

(** A sequence of calls keeps the tag when each of them does. *)
Ltac keeps_tag_chain :=
  repeat (apply keeps_tag_bind; [|intros ?]); auto with tag.

Lemma keeps_tag_handleNextClick (props : UI) : keeps_tag (handleNextClick props).
Proof. unfold handleNextClick. destruct (Js.truthy (email props)); keeps_tag_chain. Qed.

Lemma keeps_tag_handleBackClick : keeps_tag handleBackClick.
Proof. unfold handleBackClick. keeps_tag_chain. Qed.

Lemma keeps_tag_passwordBackClick : keeps_tag passwordBackClick.
Proof. unfold passwordBackClick. keeps_tag_chain. Qed.

Lemma keeps_tag_emailChange (net : Network) (props : UI) (value : string) :
  keeps_tag (emailChange net props value).
Proof.
  unfold emailChange. destruct (alert_email_typing props); cbn [negb]; keeps_tag_chain.
Qed.

Lemma keeps_tag_nextButtonClick (net : Network) (props : UI) :
  keeps_tag (nextButtonClick net props).
Proof. unfold nextButtonClick. auto with tag. Qed.

#[local] Hint Resolve keeps_tag_handleNextClick keeps_tag_handleBackClick
  keeps_tag_passwordBackClick keeps_tag_emailChange keeps_tag_nextButtonClick : tag.

Lemma handlerOf_keeps_tag (net : Network) (props : UI) (e : Event) (h : Async unit) :
  handlerOf net props e = Some h -> keeps_tag h.
Proof.
  unfold handlerOf, backButton.
  destruct e, (render props); intros H;
    repeat match type of H with
      | context [if ?b then _ else _] => destruct b
      end;
    inversion H; subst; auto with tag.
Qed.

Lemma dispatch_tagged (net : Network) (e : Event) (uid : string) (w : World) :
  tagged uid w -> tagged uid (dispatch net e w).
Proof.
  intros H. unfold dispatch.
  destruct (handlerOf net (ui w) e) as [h|] eqn:E; [|exact H].
  apply (@handlerOf_keeps_tag net (ui w) e h E). exact H.
Qed.

Lemma run_tagged (net : Network) (events : list Event) :
  forall (uid : string) (w : World), tagged uid w -> tagged uid (run net events w).
Proof.
  unfold run. induction events as [|e events IH]; intros uid w H; cbn; [exact H|].
  apply IH. apply dispatch_tagged. exact H.
Qed.

(** The effect keeps the first segment when it is made of digits, and leaves
    the ref empty otherwise. *)
Lemma captureUserId_eq (pathname : string) :
  captureUserId pathname =
    match firstPart pathname with
    | Some part => if Js.test_digits part then part else ""
    | None => ""
    end.
Proof.
  unfold captureUserId, firstPart, Js.test_digits.
  destruct (nth_error _ 1) as [part|]; [|reflexivity].
  destruct (Js.truthy part); reflexivity.
Qed.

Example captureUserId_numeric : captureUserId "/4711/login" = "4711".
Proof. reflexivity. Qed.

Example captureUserId_mixed : captureUserId "/47a1" = "".
Proof. reflexivity. Qed.

Example captureUserId_root : captureUserId "/" = "".
Proof. reflexivity. Qed.

(** C9, as the code has it: the ref is written by the effect of the mount
    only, from the first segment of the path: that segment when it is purely
    numeric, the empty string otherwise.  Whatever the user then does and the
    server answers, the ref keeps that value and every request, alert or
    status query, has it as its [user_id] property: the property is sent
    empty, not left out, when the segment is not numeric. *)
Theorem user_id_accompanies_every_request
  (net : Network) (pathname : string) (events : list Event) :
  userIdRef (run net events (mount pathname)) = captureUserId pathname /\
  Forall (fun q => property "user_id" (body q) = Some (captureUserId pathname))
    (sent (run net events (mount pathname))) /\
  captureUserId pathname =
    match firstPart pathname with
    | Some part => if Js.test_digits part then part else ""
    | None => ""
    end.
Proof.
  destruct (@run_tagged net events (captureUserId pathname) (mount pathname))
    as [Hu Hs].
  - split; [reflexivity | constructor].
  - repeat split; [exact Hu | exact Hs | apply captureUserId_eq].
Qed.

(** C9, as stated, fails: on the path [/login] the alert sent when the user
    starts typing has the property [user_id], with the empty string. *)
Lemma user_id_is_sent_empty : ~ omits_user_id_without_numeric_segment.
Proof.
  intros H. specialize (H offline "/login" [ChangeEmail "a"] eq_refl).
  vm_compute in H. inversion H as [| q l Hq _]. discriminate Hq.
Qed.

(** ** Success is final *)

Lemma render_success (s : UI) : render s = SuccessView <-> isSuccessStep s = true.
Proof.
  unfold render. destruct (isSuccessStep s), (isCustomStep s), (isDuoMobileStep s),
    (showDuoCodeInput s), (isPasswordStep s); split; intros H;
    try reflexivity; discriminate H.
Qed.

(** The success view binds no handler: nothing runs once it is shown, so a
    polling loop only ever starts while [isSuccessStep] is false. *)
Lemma success_view_has_no_handler (net : Network) (props : UI) (e : Event) :
  render props = SuccessView -> handlerOf net props e = None.
Proof. intros H. unfold handlerOf. rewrite H. destruct e; reflexivity. Qed.

Lemma success_is_final (net : Network) (events : list Event) (w : World) :
  render (ui w) = SuccessView -> run net events w = w.
Proof.
  intros H. unfold run. induction events as [|e events IH]; cbn; [reflexivity|].
  unfold dispatch at 2.
  rewrite (@success_view_has_no_handler net (ui w) e H). exact IH.
Qed.

(** ** Two sign-ins from end to end *)

(** The server answers [pending], then [success]. *)
Example pending_then_success :
  let w := run (scripted ["pending"] "success") (signIn "a@b.com" "p") (mount "/") in
  render (ui w) = SuccessView /\
  isSubmitting (ui w) = false /\
  queries (sent w) = 2 /\
  waited w = [1000].
Proof. vm_compute. repeat split; reflexivity. Qed.

(** The server asks for a Duo code and rejects the one that is typed. *)
Example rejected_duo_code :
  let net := scripted ["duo code"] "incorrect duo code" in
  let w1 := run net (signIn "a@b.com" "p") (mount "/") in
  let w2 := run net [ChangeDuoCode "000000"; SubmitDuoCode] w1 in
  (render (ui w1) = DuoCodeView /\ isError (ui w1) = false) /\
  (render (ui w2) = DuoCodeView /\ isError (ui w2) = true /\
   authMessage (ui w2) = "Incorrect code. Please try again." /\
   property "duoCode" (body (last (sent w2) (authRequest "" "" "" "" "")))
     = Some "000000").
Proof. vm_compute. repeat split; reflexivity. Qed.

(** * Further properties of the component *)

(** ** The passes of the loop, in detail *)

(** What a pass does to the loop variables and to the world, in one
    statement: it keeps polling exactly when [continues] says so, then counts
    an attempt and awaits a second; it makes no request and leaves the ref and
    the cells of the user alone. *)
Lemma classify_outcome (sd : AuthStatus) (a : nat) (w : World) :
  exists w',
    classify sd a w
      = (Normal ((if continues sd then S a else a), continues sd), w') /\
    sent w' = sent w /\ userIdRef w' = userIdRef w /\
    waited w' = (if continues sd then waited w ++ [1000] else waited w)%list /\
    userCells (ui w') = userCells (ui w) /\
    customInput (ui w') = customInput (ui w).
Proof.
  unfold classify, continues. split_status (status sd); cbn.
  all: try (destruct (data sd) as [d|]; [destruct (has_input d)|]; cbn).
  all: eexists; (split; [reflexivity|]); cbn; auto 10.
Qed.

Section Trace.
Variable net : Network.
Variable props : UI.

(** The same for a whole pass, whose query is answered by [answer]. *)
Lemma pollOnce_outcome (a : nat) (w : World) :
  exists w',
    pollOnce net props a w
      = (Normal ((if continues (answer net (sent w) (pollRequest props w))
                  then S a else a),
                 continues (answer net (sent w) (pollRequest props w))), w') /\
    sent w' = (sent w ++ [pollRequest props w])%list /\
    userIdRef w' = userIdRef w /\
    waited w' = (if continues (answer net (sent w) (pollRequest props w))
                 then waited w ++ [1000] else waited w)%list /\
    userCells (ui w') = userCells (ui w) /\
    customInput (ui w') = customInput (ui w).
Proof.
  unfold pollOnce. erewrite bind_normal by apply get_auth_status_eq.
  fold (pollRequest props w). fold (answer net (sent w) (pollRequest props w)).
  destruct (classify_outcome (answer net (sent w) (pollRequest props w)) a
              (logged (pollRequest props w) w))
    as (w' & H & Hs & Hu & Hw & Hc & Hi).
  exists w'. split; [exact H|]. rewrite Hs, Hu, Hw, Hc, Hi. cbn. auto.
Qed.

(** The loop: [n] equal queries, one wait per counted attempt; it ends still
    polling only with the attempts used up, and otherwise on an answer that
    does not continue. *)
Lemma doWhile_outcome (fuel : nat) :
  forall (a : nat) (w : World),
    1 <= fuel -> maxAttempts <= a + fuel ->
    exists a' cp w' n,
      doWhile net fuel props a w = (Normal (a', cp), w') /\
      sent w' = (sent w ++ repeat (pollRequest props w) n)%list /\
      userIdRef w' = userIdRef w /\
      1 <= n <= fuel /\
      waited w' = (waited w ++ repeat 1000 (a' - a))%list /\
      a' = (if cp then a + n else a + n - 1) /\
      (cp = true -> maxAttempts <= a') /\
      (cp = false ->
       exists history, continues (answer net history (pollRequest props w)) = false) /\
      userCells (ui w') = userCells (ui w) /\
      customInput (ui w') = customInput (ui w).
Proof.
  induction fuel as [|fuel IH]; intros a w Hf Hb; [lia|].
  destruct (pollOnce_outcome a w) as (w1 & Hp & Hs & Hu & Hw & Hc & Hi).
  cbn [doWhile]. erewrite bind_normal by exact Hp.
  destruct (continues (answer net (sent w) (pollRequest props w))) eqn:Ec;
    cbn [andb].
  - destruct (Nat.ltb_spec (S a) maxAttempts) as [Hlt | Hge].
    + destruct (IH (S a) w1)
        as (a' & cp & w' & n & Hd & Hs' & Hu' & Hn & Hw' & Ha' & Hmax & Hstop & Hc' & Hi');
        [lia | lia |].
      assert (Hq : pollRequest props w1 = pollRequest props w)
        by (unfold pollRequest; rewrite Hu; reflexivity).
      rewrite Hq in *.
      exists a', cp, w', (S n). split; [exact Hd|].
      assert (a' - a = S (a' - S a)) as -> by (destruct cp; lia).
      rewrite Hs', Hs, Hw', Hw, <- !app_assoc. cbn [repeat app].
      repeat split; try congruence; try lia; try assumption.
      all: destruct cp; lia.
    + exists (S a), true, w1, 1.
      replace (S a - a) with 1 by lia. cbn [repeat].
      repeat split; auto; try lia; discriminate.
  - exists a, false, w1, 1. rewrite Nat.sub_diag. cbn [repeat]. rewrite app_nil_r.
    repeat split; auto; try lia; try discriminate.
    intros _. exists (sent w). exact Ec.
Qed.

(** A run that polls: [n] queries, [k] waits.  Either an answer ended it,
    after one wait less than queries, and the busy flag is cleared; or every
    one of the 60 answers was followed by a wait and the timeout is
    reported. *)
Lemma handleSignInClick_outcome (isContinuation : bool) (w : World) :
  password props <> "" ->
  exists w' n k,
    handleSignInClick net props isContinuation w = (Normal tt, w') /\
    sent w' = (sent w ++ repeat (pollRequest props w) n)%list /\
    userIdRef w' = userIdRef w /\
    1 <= n <= maxAttempts /\
    waited w' = (waited w ++ repeat 1000 k)%list /\
    ((S k = n /\ isSubmitting (ui w') = false /\
      exists history, continues (answer net history (pollRequest props w)) = false)
     \/
     (k = n /\ n = maxAttempts /\ isError (ui w') = true /\
      authMessage (ui w') = "Authentication timed out. Please try again.")) /\
    userCells (ui w') = userCells (ui w) /\
    customInput (ui w') = customInput (ui w).
Proof.
  intros Hpw. unfold handleSignInClick.
  rewrite (truthy_nonempty Hpw). cbn [negb].
  destruct isContinuation; cbn -[doWhile maxAttempts].
  all: match goal with
       | |- exists w' n k, bind _ _ ?w0 = _ /\ _ =>
           destruct (@doWhile_outcome maxAttempts 0 w0)
             as (a' & cp & w1 & n & Hd & Hs & Hu & Hn & Hw & Ha' & Hmax & Hstop
                 & Hc & Hi);
           [unfold maxAttempts; lia | lia |]
       end.
  all: erewrite bind_normal by exact Hd.
  all: rewrite Nat.sub_0_r in Hw; cbn [plus] in Ha'.
  all: destruct cp; cbn -[maxAttempts].
  all: try (rewrite (proj2 (Nat.leb_le _ _) (Hmax eq_refl)); cbn -[maxAttempts]).
  all: eexists; exists n, a'; split; [reflexivity|]; cbn -[maxAttempts].
  all: specialize (Hmax); unfold pollRequest in *; cbn -[maxAttempts] in *.
  all: repeat split; auto; try lia.
  all: try specialize (Hmax eq_refl); try specialize (Hstop eq_refl).
  all: first [ solve [right; repeat split; auto; lia]
             | solve [left; repeat split; auto; lia] ].
Qed.
End Trace.

(** ** A run that is decided by its first answer *)

Section FirstAnswer.

Variable net : Network.
Variable props : UI.

(** When the first answer does not continue, [handleSignInClick] is the
    conditional on that answer followed by the clearing of the busy flag. *)
Lemma handleSignInClick_first_answer (isContinuation : bool) (w : World) :
  password props <> "" ->
  continues (answer net (sent w) (pollRequest props w)) = false ->
  handleSignInClick net props isContinuation w =
    bind (classify (answer net (sent w) (pollRequest props w)) 0)
      (fun _ => setState (setIsSubmitting false))
      (logged (pollRequest props w) (began isContinuation w)).
Proof.
  intros Hpw Hc. unfold handleSignInClick.
  rewrite (truthy_nonempty Hpw). cbn [negb].
  assert (Hb : (if negb isContinuation
                then setState (setIsSubmitting true);; setState (setAuthMessage "");;
                     setState (setIsError false);; setState (setIsPasswordStep false);;
                     setState (setIsDuoMobileStep true);;
                     setState (setShowDuoCodeInput false)
                else ret tt) w = (Normal tt, began isContinuation w))
    by (destruct isContinuation; reflexivity).
  erewrite bind_normal by exact Hb.
  change maxAttempts with (S 59) at 1. cbn [doWhile]. unfold pollOnce.
  assert (Hs : sent (began isContinuation w) = sent w)
    by (destruct isContinuation; reflexivity).
  assert (Hu : userIdRef (began isContinuation w) = userIdRef w)
    by (destruct isContinuation; reflexivity).
  unfold bind at 1 2 3. rewrite get_auth_status_eq.
  fold (pollRequest props (began isContinuation w)).
  unfold pollRequest at 1 2 3. rewrite Hs, Hu.
  fold (pollRequest props w). fold (answer net (sent w) (pollRequest props w)).
  destruct (classify_outcome (answer net (sent w) (pollRequest props w)) 0
              (logged (pollRequest props w) (began isContinuation w)))
    as (w1 & H1 & _).
  rewrite Hc in H1. unfold bind. rewrite H1. cbn. reflexivity.
Qed.

End FirstAnswer.

(** Runs [handleSignInClick] on a first answer whose status is given by
    [Hst], down to the world it returns. *)
Ltac first_answer net props ic w Hpw Hst :=
  rewrite (@handleSignInClick_first_answer net props ic w Hpw)
    by (unfold continues; rewrite Hst; reflexivity);
  unfold classify; rewrite Hst; destruct ic; cbn;
  (eexists; split; [reflexivity|]); cbn.

(** X1: when the first answer is [incorrect password], [handleSignInClick]
    returns after that one query and without waiting: the error flag is set,
    the message is ["Incorrect password. Please try again."], the busy flag
    is cleared, the password cell keeps what was typed, and the password step
    is shown (unless success or a custom step was showing). *)
Theorem incorrect_password_returns_to_password_step
  (net : Network) (props : UI) (isContinuation : bool) (w : World) :
  password props <> "" ->
  status (answer net (sent w) (pollRequest props w)) = "incorrect password" ->
  exists w',
    handleSignInClick net props isContinuation w = (Normal tt, w') /\
    sent w' = (sent w ++ [pollRequest props w])%list /\
    waited w' = waited w /\
    isError (ui w') = true /\
    authMessage (ui w') = "Incorrect password. Please try again." /\
    isSubmitting (ui w') = false /\
    password (ui w') = password (ui w) /\
    (isSuccessStep (ui w) = false -> isCustomStep (ui w) = false ->
     render (ui w') = PasswordView).
Proof.
  intros Hpw Hst. first_answer net props isContinuation w Hpw Hst.
  all: unfold render; cbn; repeat split; try reflexivity.
  all: intros -> ->; reflexivity.
Qed.

Lemma incorrect_password_returns_to_password_step_witness :
  exists w',
    handleSignInClick (always "incorrect password") (answering "wrong" "" "") false
      (page (answering "wrong" "" "")) = (Normal tt, w') /\
    isError (ui w') = true /\
    render (ui w') = PasswordView.
Proof.
  destruct (@incorrect_password_returns_to_password_step
              (always "incorrect password") (answering "wrong" "" "") false
              (page (answering "wrong" "" "")))
    as (w' & H & _ & _ & He & _ & _ & _ & Hv).
  - discriminate.
  - reflexivity.
  - exists w'. repeat split; [exact H | exact He | apply Hv; reflexivity].
Defined.

(** X2: when the first answer is [duo code] or [incorrect duo code],
    [handleSignInClick] returns after that one query and without waiting,
    with the busy flag cleared and the form of the code shown (unless success
    was showing); the code cell keeps what was typed.  [duo code] clears the
    error flag and asks for the code; [incorrect duo code] sets the error
    flag with the message ["Incorrect code. Please try again."]. *)
Theorem duo_code_statuses_show_the_code_form
  (net : Network) (props : UI) (isContinuation : bool) (w : World) :
  password props <> "" ->
  status (answer net (sent w) (pollRequest props w)) = "duo code" \/
  status (answer net (sent w) (pollRequest props w)) = "incorrect duo code" ->
  exists w',
    handleSignInClick net props isContinuation w = (Normal tt, w') /\
    sent w' = (sent w ++ [pollRequest props w])%list /\
    waited w' = waited w /\
    isSubmitting (ui w') = false /\
    duoCode (ui w') = duoCode (ui w) /\
    (isSuccessStep (ui w) = false -> render (ui w') = DuoCodeView) /\
    (status (answer net (sent w) (pollRequest props w)) = "duo code" ->
     isError (ui w') = false /\
     authMessage (ui w') =
       "Open your Duo app and Duo will send you a one time code. enter code here") /\
    (status (answer net (sent w) (pollRequest props w)) = "incorrect duo code" ->
     isError (ui w') = true /\
     authMessage (ui w') = "Incorrect code. Please try again.").
Proof.
  intros Hpw [Hst | Hst]; first_answer net props isContinuation w Hpw Hst.
  all: unfold render; cbn; repeat split; try reflexivity; try discriminate.
  all: intros ->; reflexivity.
Qed.

Lemma duo_code_statuses_show_the_code_form_witness :
  exists w',
    handleSignInClick (always "incorrect duo code") (answering "hunter2" "" "000000")
      false (page (answering "hunter2" "" "000000")) = (Normal tt, w') /\
    render (ui w') = DuoCodeView /\
    isError (ui w') = true /\
    duoCode (ui w') = "000000".
Proof.
  destruct (@duo_code_statuses_show_the_code_form
              (always "incorrect duo code") (answering "hunter2" "" "000000") false
              (page (answering "hunter2" "" "000000")))
    as (w' & H & _ & _ & _ & Hd & Hv & _ & Hbad).
  - discriminate.
  - right; reflexivity.
  - exists w'. repeat split;
      [exact H | apply Hv; reflexivity | apply Hbad; reflexivity | exact Hd].
Defined.



(** X4: the conditional of the loop keeps polling exactly on the statuses
    [pending], [mobile notification], [phone_call], and on [custom] unless its
    data asks for input.  When it keeps polling it counts one attempt and
    awaits one second; otherwise it leaves the counter and awaits nothing.
    In no case does it make a request. *)
Theorem polling_continues_exactly_on_waiting_statuses
  (sd : AuthStatus) (attempts : nat) (w : World) :
  exists w',
    classify sd attempts w
      = (Normal ((if continues sd then S attempts else attempts), continues sd), w') /\
    sent w' = sent w /\
    waited w' = (if continues sd then waited w ++ [1000] else waited w)%list.
Proof.
  destruct (classify_outcome sd attempts w) as (w' & H & Hs & _ & Hw & _).
  exists w'. repeat split; assumption.
Qed.




(** X7: an answer that does not keep the loop polling ends the run at once:
    if the first answer is such, [handleSignInClick] returns having made
    exactly one query and awaited nothing, with the busy flag cleared. *)
Theorem decisive_first_answer_takes_one_query
  (net : Network) (props : UI) (isContinuation : bool) (w : World) :
  password props <> "" ->
  continues (answer net (sent w) (pollRequest props w)) = false ->
  exists w',
    handleSignInClick net props isContinuation w = (Normal tt, w') /\
    issuedBy (handleSignInClick net props isContinuation) w = [pollRequest props w] /\
    waited w' = waited w /\
    isSubmitting (ui w') = false.
Proof.
  intros Hpw Hc.
  destruct (classify_outcome (answer net (sent w) (pollRequest props w)) 0
              (logged (pollRequest props w) (began isContinuation w)))
    as (w1 & H1 & Hs & _ & Hw & _).
  rewrite Hc in H1, Hw.
  assert (E : handleSignInClick net props isContinuation w
              = (Normal tt, withUI (setIsSubmitting false (ui w1)) w1)).
  { rewrite (@handleSignInClick_first_answer net props isContinuation w Hpw Hc).
    erewrite bind_normal by exact H1. reflexivity. }
  eexists. split; [exact E|].
  assert (Hb : sent (began isContinuation w) = sent w /\
               waited (began isContinuation w) = waited w)
    by (destruct isContinuation; split; reflexivity).
  destruct Hb as [Hbs Hbw].
  split; [|split; [|reflexivity]].
  - apply issuedBy_app. rewrite E. cbn. rewrite Hs. cbn. rewrite Hbs. reflexivity.
  - cbn. rewrite Hw. cbn. exact Hbw.
Qed.

Lemma decisive_first_answer_takes_one_query_witness :
  exists w',
    handleSignInClick (always "maintenance") (answering "hunter2" "" "") false
      (page (answering "hunter2" "" "")) = (Normal tt, w') /\
    waited w' = [] /\
    isSubmitting (ui w') = false.
Proof.
  destruct (@decisive_first_answer_takes_one_query
              (always "maintenance") (answering "hunter2" "" "") false
              (page (answering "hunter2" "" "")))
    as (w' & H & _ & Hw & Hb).
  - discriminate.
  - reflexivity.
  - exists w'. repeat split; [exact H | exact Hw | exact Hb].
Defined.

(** X8: a failed transport and a response whose body is not JSON end the run
    alike: after that one query [handleSignInClick] returns with the error
    flag set, the message ["Network error or server is down."] and the busy
    flag cleared. *)
Theorem failed_query_ends_the_run
  (net : Network) (props : UI) (isContinuation : bool) (w : World) :
  password props <> "" ->
  net (sent w) (pollRequest props w) = Rejected \/
  net (sent w) (pollRequest props w) = Resolved MalformedBody ->
  exists w',
    handleSignInClick net props isContinuation w = (Normal tt, w') /\
    sent w' = (sent w ++ [pollRequest props w])%list /\
    isError (ui w') = true /\
    authMessage (ui w') = "Network error or server is down." /\
    isSubmitting (ui w') = false.
Proof.
  intros Hpw Hnet.
  assert (Ha : answer net (sent w) (pollRequest props w) = networkError)
    by (unfold answer; destruct Hnet as [-> | ->]; reflexivity).
  rewrite (@handleSignInClick_first_answer net props isContinuation w Hpw)
    by (rewrite Ha; reflexivity).
  rewrite Ha. destruct isContinuation; cbn.
  all: eexists; split; [reflexivity|]; cbn; auto.
Qed.

Lemma failed_query_ends_the_run_witness :
  exists w',
    handleSignInClick garbled (answering "hunter2" "" "") false
      (page (answering "hunter2" "" "")) = (Normal tt, w') /\
    authMessage (ui w') = "Network error or server is down.".
Proof.
  destruct (@failed_query_ends_the_run garbled (answering "hunter2" "" "") false
              (page (answering "hunter2" "" "")))
    as (w' & H & _ & _ & Hm & _).
  - discriminate.
  - right; reflexivity.
  - exists w'. split; [exact H | exact Hm].
Defined.

(** X9: a server none of whose answers ends the polling (the three waiting
    statuses and [custom] steps without input, in any mix) makes
    [handleSignInClick] return after exactly 60 queries and 60 waits of a
    second, with the error flag set and the message of the timeout. *)
Theorem continuing_answers_time_out
  (net : Network) (props : UI) (isContinuation : bool) (w : World) :
  onlyContinuing net -> password props <> "" ->
  exists w',
    handleSignInClick net props isContinuation w = (Normal tt, w') /\
    issuedBy (handleSignInClick net props isContinuation) w
      = repeat (pollRequest props w) 60 /\
    waited w' = (waited w ++ repeat 1000 60)%list /\
    isError (ui w') = true /\
    authMessage (ui w') = "Authentication timed out. Please try again.".
Proof.
  intros Hnet Hpw.
  destruct (@handleSignInClick_outcome net props isContinuation w Hpw)
    as (w' & n & k & H & Hs & _ & _ & Hw & Hend & _).
  destruct Hend as [(_ & _ & history & Hc) | (Hk & Hn & He & Hm)].
  - rewrite Hnet in Hc. discriminate Hc.
  - subst k. rewrite Hn in Hs, Hw. exists w'. split; [exact H|].
    split; [|repeat split; assumption].
    apply issuedBy_app. rewrite H. exact Hs.
Qed.

Lemma always_custom_onlyContinuing : onlyContinuing (always "custom").
Proof. intros history q. reflexivity. Qed.

Lemma continuing_answers_time_out_witness :
  exists w',
    handleSignInClick (always "custom") (answering "hunter2" "" "") true
      (page (answering "hunter2" "" "")) = (Normal tt, w') /\
    authMessage (ui w') = "Authentication timed out. Please try again.".
Proof.
  destruct (@continuing_answers_time_out (always "custom")
              (answering "hunter2" "" "") true (page (answering "hunter2" "" ""))
              always_custom_onlyContinuing)
    as (w' & H & _ & _ & _ & Hm).
  - discriminate.
  - exists w'. split; [exact H | exact Hm].
Defined.

(** ** What the handlers leave alone *)

Lemma handleSignInClick_keeps_cells
  (net : Network) (props : UI) (isContinuation : bool) (w : World) :
  userCells (ui (snd (handleSignInClick net props isContinuation w)))
    = userCells (ui w) /\
  customInput (ui (snd (handleSignInClick net props isContinuation w)))
    = customInput (ui w).
Proof.
  destruct (String.eqb_spec (password props) "") as [E | E].
  - unfold handleSignInClick. rewrite E. cbn. auto.
  - destruct (@handleSignInClick_outcome net props isContinuation w E)
      as (w' & n & k & H & _ & _ & _ & _ & _ & Hc & Hi).
    rewrite H. cbn [snd]. auto.
Qed.

(** X10: polling never writes what the user typed or ticked: whatever the
    server answers (a rejected password or code included),
    [handleSignInClick] returns with the email, password, code, custom input
    and checkboxes it found.  [handleCustomSubmit] keeps them too, except the
    custom input, which it empties. *)
Theorem polling_keeps_what_the_user_typed
  (net : Network) (props : UI) (isContinuation : bool) (w : World) :
  (userCells (ui (snd (handleSignInClick net props isContinuation w)))
     = userCells (ui w) /\
   customInput (ui (snd (handleSignInClick net props isContinuation w)))
     = customInput (ui w)) /\
  (userCells (ui (snd (handleCustomSubmit net props w))) = userCells (ui w) /\
   customInput (ui (snd (handleCustomSubmit net props w))) = "").
Proof.
  split; [apply handleSignInClick_keeps_cells|].
  unfold handleCustomSubmit.
  assert (E : exists w1, submitCustomInput net props w = (Normal tt, w1) /\
                         userCells (ui w1) = userCells (ui w) /\
                         customInput (ui w1) = "").
  { unfold submitCustomInput. cbn -[get_auth_status].
    unfold bind at 1. rewrite get_auth_status_eq. cbn.
    eexists. split; [reflexivity|]. cbn. auto. }
  destruct E as (w1 & H1 & Hc1 & Hi1).
  erewrite bind_normal by exact H1.
  destruct (handleSignInClick_keeps_cells net props true w1) as [Hc Hi].
  rewrite Hc, Hi. auto.
Qed.

(** The alert is one request, and its outcome is ignored. *)
Lemma send_alert_notification_eq (net : Network) (message : string) (w : World) :
  send_alert_notification net message w
    = (Normal tt, logged (alertRequest (userIdRef w) message) w).
Proof.
  unfold send_alert_notification, try_catch, bind, readUserIdRef, fetch, api_url,
    alertRequest, logged.
  cbn. destruct (net (sent w) _); reflexivity.
Qed.

(** X11: [send_alert_notification] returns normally whether the transport
    delivers the alert or fails: it makes exactly one request, to [/alert],
    with the message and the identifier of the ref, and changes no state
    cell. *)
Theorem alert_failures_are_swallowed
  (net : Network) (message : string) (w : World) :
  exists w',
    send_alert_notification net message w = (Normal tt, w') /\
    issuedBy (send_alert_notification net message) w
      = [{| url := "/alert";
            body := [("message", message); ("user_id", userIdRef w)] |}] /\
    ui w' = ui w /\ userIdRef w' = userIdRef w.
Proof.
  exists (logged (alertRequest (userIdRef w) message) w).
  split; [apply send_alert_notification_eq|]. split; [|split; reflexivity].
  apply issuedBy_app. rewrite send_alert_notification_eq. reflexivity.
Qed.

(** ** No handler raises *)







(** ** Events *)

(** X13: submitting the form of the Duo code (enabled, with a code typed)
    starts a polling run whose queries, between one and 60 of them, all carry
    the code of the field as [duoCode], with an empty [customInput]. *)
Theorem duo_code_submission_carries_the_code (net : Network) (w : World) :
  render (ui w) = DuoCodeView ->
  isSubmitting (ui w) = false ->
  duoCode (ui w) <> "" ->
  exists n,
    sent (dispatch net SubmitDuoCode w)
      = (sent w ++ repeat (authRequest (userIdRef w) (email (ui w)) (password (ui w))
                             (duoCode (ui w)) "") n)%list /\
    n <= 60 /\
    (if password (ui w) =? "" then n = 0 else 1 <= n).
Proof.
  intros Hv Hb Hd. unfold dispatch, handlerOf. rewrite Hv, Hb, (truthy_nonempty Hd).
  cbn [orb negb].
  destruct (@handleSignInClick_frame net (ui w) false w)
    as (w' & n & H & Hs & _ & Hn & Hpw & _).
  rewrite H. exists n. repeat split; assumption.
Qed.

Lemma duo_code_submission_carries_the_code_witness :
  exists n,
    sent (dispatch (always "success") SubmitDuoCode
            (page (setShowDuoCodeInput true (setIsDuoMobileStep true
                     (answering "hunter2" "" "123456")))))
      = repeat (authRequest "" "a@b.com" "hunter2" "123456" "") n /\
    n <= 60.
Proof.
  destruct (@duo_code_submission_carries_the_code (always "success")
              (page (setShowDuoCodeInput true (setIsDuoMobileStep true
                       (answering "hunter2" "" "123456")))))
    as (n & Hs & Hn & _).
  - reflexivity.
  - reflexivity.
  - discriminate.
  - exists n. split; [exact Hs | exact Hn].
Defined.





(** X16: once the success view is shown nothing changes any more: no event
    has a handler there, so every sequence of events leaves the world as it
    is, whatever the server would answer. *)
Theorem nothing_happens_after_success
  (net : Network) (events : list Event) (w : World) :
  isSuccessStep (ui w) = true ->
  run net events w = w /\
  render (ui (run net events w)) = SuccessView.
Proof.
  intros H. apply render_success in H.
  rewrite (@success_is_final net events w H). split; [reflexivity | exact H].
Qed.

Lemma nothing_happens_after_success_witness :
  run (always "pending") [ClickBack; ChangePassword "x"; SubmitPassword]
    (page (setIsSuccessStep true (answering "hunter2" "" "")))
  = page (setIsSuccessStep true (answering "hunter2" "" "")).
Proof.
  exact (proj1 (@nothing_happens_after_success (always "pending")
                  [ClickBack; ChangePassword "x"; SubmitPassword]
                  (page (setIsSuccessStep true (answering "hunter2" "" "")))
                  eq_refl)).
Defined.

(** ** The identifier read from the path *)

(** X17: whatever the path, the identifier the mount leaves in the ref is
    made of digits only (possibly none), and when it is not empty it is the
    first segment of the path. *)
Theorem captured_user_id_is_numeric_or_empty (pathname : string) :
  Js.all_digits (captureUserId pathname) = true /\
  (captureUserId pathname <> "" ->
   firstPart pathname = Some (captureUserId pathname)).
Proof.
  rewrite captureUserId_eq. unfold Js.test_digits.
  destruct (firstPart pathname) as [part|]; [|split; [reflexivity | congruence]].
  destruct (Js.truthy part); cbn [andb]; [|split; [reflexivity | congruence]].
  destruct (Js.all_digits part) eqn:E; split; auto; congruence.
Qed.

Lemma string_app_assoc (a b c : string) : (a ++ b) ++ c = a ++ (b ++ c).
Proof. induction a as [|x a IH]; cbn; [reflexivity | rewrite IH; reflexivity]. Qed.

Lemma string_app_empty (a : string) : a ++ "" = a.
Proof. induction a as [|x a IH]; cbn; [reflexivity | rewrite IH; reflexivity]. Qed.

Lemma digit_is_not_slash (c : ascii) : Js.is_digit c = true -> Ascii.eqb c "/" = false.
Proof.
  intros H. destruct (Ascii.eqb_spec c "/") as [-> | _]; [discriminate H | reflexivity].
Qed.

(** Splitting at [/] runs through a run of digits without cutting it. *)
Lemma split_from_digits (d : string) :
  forall (acc rest : string),
    Js.all_digits d = true ->
    Js.split_from "/" acc (d ++ rest) = Js.split_from "/" (acc ++ d) rest.
Proof.
  induction d as [|c d IH]; intros acc rest H; cbn.
  - rewrite string_app_empty. reflexivity.
  - cbn in H. apply andb_prop in H. destruct H as [Hc Hd].
    rewrite (digit_is_not_slash _ Hc), (IH _ _ Hd), string_app_assoc. reflexivity.
Qed.

(** X18: a path that starts with a slash and a non-empty run of digits, alone
    or followed by a slash and anything, gives those digits as the
    identifier. *)
Theorem numeric_first_segment_is_captured (digits rest : string) :
  digits <> "" -> Js.all_digits digits = true ->
  captureUserId ("/" ++ digits) = digits /\
  captureUserId ("/" ++ digits ++ "/" ++ rest) = digits.
Proof.
  intros Hne Hd.
  assert (Ht : Js.truthy digits && Js.test_digits digits = true).
  { unfold Js.test_digits. rewrite (truthy_nonempty Hne), Hd. reflexivity. }
  split; unfold captureUserId, Js.split; cbn [append Js.split_from Ascii.eqb Bool.eqb].
  - rewrite <- (string_app_empty digits) at 1.
    rewrite (split_from_digits _ "" "" Hd). cbn. rewrite Ht. reflexivity.
  - rewrite (split_from_digits _ "" _ Hd). cbn. rewrite Ht. reflexivity.
Qed.

Lemma numeric_first_segment_is_captured_witness :
  captureUserId "/2024" = "2024" /\ captureUserId "/2024/inbox/7" = "2024".
Proof.
  apply (@numeric_first_segment_is_captured "2024" "inbox/7").
  - discriminate.
  - reflexivity.
Defined.

(** ** The alert of the email field *)

Lemma typingAlerts_app (a b : list Request) :
  typingAlerts (a ++ b) = typingAlerts a + typingAlerts b.
Proof. unfold typingAlerts. rewrite filter_app, length_app. reflexivity. Qed.

Lemma typingAlerts_queries (u e p d c : string) (n : nat) :
  typingAlerts (repeat (authRequest u e p d c) n) = 0.
Proof. induction n as [|n IH]; [reflexivity | exact IH]. Qed.

Lemma userCells_latch (s s' : UI) :
  userCells s' = userCells s -> alert_email_typing s' = alert_email_typing s.
Proof. unfold userCells. intros H. inversion H. reflexivity. Qed.

Lemma keeps_once_handleSignInClick (net : Network) (props : UI) (ic : bool) :
  keeps_once (handleSignInClick net props ic).
Proof.
  intros w H. unfold alertedOnce in *.
  destruct (handleSignInClick_keeps_cells net props ic w) as [Hc _].
  rewrite (userCells_latch Hc).
  destruct (@handleSignInClick_frame net props ic w) as (w' & n & E & Hs & _).
  rewrite E. cbn [snd]. rewrite Hs, typingAlerts_app.
  unfold pollRequest. rewrite typingAlerts_queries. lia.
Qed.

Lemma keeps_once_handleCustomSubmit (net : Network) (props : UI) :
  keeps_once (handleCustomSubmit net props).
Proof.
  intros w H. unfold handleCustomSubmit.
  assert (E : exists w1, submitCustomInput net props w = (Normal tt, w1) /\
                         alertedOnce w1).
  { unfold submitCustomInput. cbn -[get_auth_status].
    unfold bind at 1. rewrite get_auth_status_eq. cbn.
    eexists. split; [reflexivity|]. unfold alertedOnce in *. cbn -[typingAlerts].
    rewrite typingAlerts_app. cbn. lia. }
  destruct E as (w1 & H1 & Hi).
  erewrite bind_normal by exact H1.
  apply keeps_once_handleSignInClick. exact Hi.
Qed.

(** The alert of the Next button is another message. *)
Lemma keeps_once_submitEmail (net : Network) (props : UI) :
  keeps_once (nextButtonClick net props ;; handleNextClick props).
Proof.
  intros w H. unfold nextButtonClick.
  erewrite bind_normal by apply send_alert_notification_eq.
  unfold handleNextClick, alertedOnce in *.
  destruct (Js.truthy (email props)); cbn -[typingAlerts];
    rewrite typingAlerts_app; cbn; lia.
Qed.

(** The handler of the email field sends the alert only while the latch is
    open, and closes it. *)
Lemma emailChange_alertedOnce (net : Network) (value : string) (w : World) :
  alertedOnce w -> alertedOnce (snd (emailChange net (ui w) value w)).
Proof.
  intros H. unfold emailChange, alertedOnce in *.
  destruct (alert_email_typing (ui w)) eqn:E; cbn [negb].
  - cbn. rewrite E. exact H.
  - unfold bind, setState. rewrite send_alert_notification_eq. cbn -[typingAlerts].
    rewrite typingAlerts_app. cbn. lia.
Qed.

Lemma dispatch_alertedOnce (net : Network) (e : Event) (w : World) :
  alertedOnce w -> alertedOnce (dispatch net e w).
Proof.
  intros H. unfold dispatch, handlerOf, backButton.
  destruct e, (render (ui w));
    repeat match goal with
      | |- context [if ?b then _ else _] => destruct b
      end;
    try exact H;
    first [ apply emailChange_alertedOnce; exact H
          | apply keeps_once_submitEmail; exact H
          | apply keeps_once_handleSignInClick; exact H
          | apply keeps_once_handleCustomSubmit; exact H
          | (unfold alertedOnce in *; cbn; exact H) ].
Qed.

Lemma run_alertedOnce (net : Network) (events : list Event) :
  forall w, alertedOnce w -> alertedOnce (run net events w).
Proof.
  unfold run. induction events as [|e events IH]; intros w H; cbn; [exact H|].
  apply IH. apply dispatch_alertedOnce. exact H.
Qed.

(** X19: in a session the alert ["Someone is currently typing an email"] is
    sent at most once, whatever the user does after the page has mounted and
    whatever the server answers: the latch [alert_email_typing] is closed
    with the first change of the email field and nothing opens it again. *)
Theorem typing_alert_is_sent_at_most_once
  (net : Network) (pathname : string) (events : list Event) :
  typingAlerts (sent (run net events (mount pathname))) <= 1.
Proof.
  assert (H : alertedOnce (run net events (mount pathname))).
  { apply run_alertedOnce. unfold alertedOnce. cbn. lia. }
  unfold alertedOnce in H.
  destruct (alert_email_typing (ui (run net events (mount pathname)))); lia.
Qed.

(** Typing an address letter by letter sends the alert once. *)
Example typing_an_address :
  typingAlerts (sent (run offline
    [ChangeEmail "a"; ChangeEmail "a@"; ChangeEmail "a@b"] (mount "/"))) = 1.
Proof. reflexivity. Qed.

(** ** The submission of a custom input *)

(** X20: the answer to the query that submits a custom input is not looked
    at.  Whatever the server answers to it, and even when the transport
    fails, the first part of [handleCustomSubmit] makes that one query and
    leaves the same state cells: the input emptied, the busy flag set, the
    error flag cleared, the message ["Authentication pending. Please
    wait..."] and the Duo prompt shown (unless success was showing). *)
Theorem custom_submission_ignores_its_answer
  (net : Network) (props : UI) (w : World) :
  exists w',
    submitCustomInput net props w = (Normal tt, w') /\
    ui w' = ui (snd (submitCustomInput offline props w)) /\
    sent w' = (sent w ++ [authRequest (userIdRef w) (email props) (password props)
                            "" (customInput props)])%list /\
    customInput (ui w') = "" /\
    isSubmitting (ui w') = true /\
    isError (ui w') = false /\
    authMessage (ui w') = "Authentication pending. Please wait..." /\
    render (ui w') = (if isSuccessStep (ui w) then SuccessView else DuoPromptView).
Proof.
  unfold submitCustomInput. cbn -[get_auth_status].
  unfold bind at 1. rewrite get_auth_status_eq. cbn.
  eexists. split; [reflexivity|]. cbn. unfold render. cbn.
  destruct (isSuccessStep (ui w)); auto 10.
Qed.
